(** * SpreadsheetFileV2: the tabular-file conversion node

    A shallow embedding of
    [packages/nodes-base/nodes/SpreadsheetFile/v2/SpreadsheetFileV2.node.ts].

    The node is an adapter: it reads node parameters, hands the binary
    payload to a CSV or spreadsheet engine, reshapes the rows that come
    back and wraps failures.  The engines ([csv-parse], [xlsx]), the
    workflow runtime ([IExecuteFunctions]) and the helpers imported from
    [@utils] are collaborators; they appear here as the fields of two
    records, [IExecuteFunctions] and [Externals], and every statement
    below is about [execute] for arbitrary collaborators. *)

From Stdlib Require Import ZArith Floats Strings.Byte Strings.Ascii.
From stdpp Require Import gmap strings list fin_maps pretty.

Set Warnings "-register-all".
Local Open Scope Z_scope.

(** ** Thrown values and fallible computations *)

(** What a [throw] carries: an [Error] has a message; a
    [NodeOperationError] also has the index of the item it is about. *)
Record JsError := mkError {
  message : string;
  itemIndex : option nat
}.

(** [new Error(msg)] as the collaborators raise it. *)
Definition plainError (msg : string) : JsError :=
  {| message := msg; itemIndex := None |}.

(** [new NodeOperationError(node, 'text', { itemIndex: i })]. *)
Definition NodeOperationError (msg : string) (i : nat) : JsError :=
  {| message := msg; itemIndex := Some i |}.

(** [new NodeOperationError(node, error, { itemIndex: i })]: the message
    is the one of the wrapped error. *)
Definition wrapError (error : JsError) (i : nat) : JsError :=
  NodeOperationError (message error) i.

Inductive Result (A : Type) : Type :=
| Ok (a : A)
| Throw (error : JsError).
Arguments Ok {A} a.
Arguments Throw {A} error.

(** Sequencing: a throw skips the rest. *)
Definition bind {A B : Type} (m : Result A) (k : A -> Result B) : Result B :=
  match m with
  | Ok a => k a
  | Throw error => Throw error
  end.

Declare Scope result_scope.
Delimit Scope result_scope with result.
Notation "x <- m ;; k" := (bind m (fun x => k))
  (at level 100, m at next level, right associativity) : result_scope.
Local Open Scope result_scope.

(** ** JavaScript data *)

Inductive JsValue : Type :=
| VUndefined
| VNull
| VBool (b : bool)
| VNum (x : float)
| VStr (s : string)
| VArr (elems : list JsValue)
| VObj (props : gmap string JsValue).

(** [value !== ''] *)
Definition notEmptyString (value : JsValue) : bool :=
  match value with
  | VStr EmptyString => false
  | _ => true
  end.

(** What [csv-parse] hands to [onRecord]: an array of cells when
    [columns] is false, an object keyed by column name otherwise. *)
Inductive CsvRecord : Type :=
| RecordArray (cells : list JsValue)
| RecordObject (fields : gmap string JsValue).

(** The record as the value pushed onto [rows]. *)
Definition recordValue (record : CsvRecord) : JsValue :=
  match record with
  | RecordArray cells => VArr cells
  | RecordObject fields => VObj fields
  end.

(** [Object.entries]: the own enumerable properties; the properties of
    an array are its indices, written in decimal. *)
Definition Object_entries (record : CsvRecord) : list (string * JsValue) :=
  match record with
  | RecordArray cells => imap (fun i value => (pretty i, value)) cells
  | RecordObject fields => map_to_list fields
  end.

(** [Object.fromEntries]: always a plain object; of two entries with one
    key the later one stays. *)
Definition Object_fromEntries (entries : list (string * JsValue)) : CsvRecord :=
  RecordObject (list_to_map (reverse entries)).

(** ** Node data *)

Record IBinaryData := {
  data : string;
  mimeType : string;
  fileExtension : option string;
  id : option string
}.

Record IPairedItemData := { item : nat }.

(** [pairedItem] is one reference or an array of them. *)
Inductive PairedItem : Type :=
| PairedOne (p : IPairedItemData)
| PairedMany (ps : list IPairedItemData).

Record INodeExecutionData := {
  json : JsValue;
  binary : option (gmap string IBinaryData);
  pairedItem : option PairedItem
}.

(** The [options] collection.  A field that the user did not add is
    [None] ([undefined]). *)
Record Options := {
  delimiter : option string;
  fromLine : option Z;
  enableBOM : option bool;
  maxRowCount : option Z;
  headerRow : option bool;
  includeEmptyCells : option bool;
  rawData : option bool;
  readAsString : option bool;
  sheetName : option string;
  range : option string
}.

(** A parameter read with the fallback [{}]: a string, or the fallback. *)
Inductive JsParam : Type :=
| PStr (s : string)
| PEmptyObject.

(** Truthiness of an optional boolean and of an optional string. *)
Definition truthyBool (b : option bool) : bool :=
  match b with
  | Some true => true
  | _ => false
  end.

Definition truthyString (s : option string) : option string :=
  match s with
  | Some EmptyString => None
  | Some s => Some s
  | None => None
  end.

(** [options.headerRow === false] *)
Definition headerRowIsFalse (options : Options) : bool :=
  match headerRow options with
  | Some false => true
  | _ => false
  end.

(** ** The engines' option records *)

Record CsvParseOptions := {
  csv_delimiter : option string;
  csv_fromLine : option Z;
  csv_bom : option bool;
  csv_to : option Z;
  csv_columns : bool
}.

(** The parser with another [to]. *)
Definition withTo (to : option Z) (o : CsvParseOptions) : CsvParseOptions :=
  {| csv_delimiter := csv_delimiter o;
     csv_fromLine := csv_fromLine o;
     csv_bom := csv_bom o;
     csv_to := to;
     csv_columns := csv_columns o |}.

(** One run of the CSV parser over its input: the records it handed to
    [onRecord], in order, and the error it emitted, if it stopped on
    one. *)
Record ParseRun := {
  handled : list CsvRecord;
  parseError : option JsError
}.

(** A run that stops once [k] records are handled: when the input holds
    that many, what follows them is not read, an error in it included. *)
Definition stopAfter (k : nat) (run : ParseRun) : ParseRun :=
  if (k <=? length (handled run))%nat
  then {| handled := take k (handled run); parseError := None |}
  else run.

(** The error [csv-parse] throws for a [to] that is not above 0. *)
Definition InvalidToOption (k : Z) : JsError :=
  plainError
    ("Invalid Option: to must be a positive integer greater than 0, got "
       +:+ pretty k).

Record ParsingOptions := {
  xlsx_raw : option bool;
  xlsx_type : option string
}.

Record Sheet2JSONOpts := {
  s2j_range : option (string + float);
  s2j_defval : option string;
  s2j_header : option Z
}.

(** What [xlsxRead] is given: the buffer, or its text. *)
Inductive XlsxData : Type :=
| XlsxBuffer (b : list byte)
| XlsxString (s : string).

Section Node.

(** A worksheet is opaque to the node. *)
Context {WorkSheet : Type}.

Record WorkBook := {
  SheetNames : list string;
  Sheets : gmap string WorkSheet
}.

(** ** Collaborators *)

(** The workflow runtime, as [execute] uses it through [this]. *)
Record IExecuteFunctions := {
  getInputData : list INodeExecutionData;
  (** [getNodeParameter('operation', 0)] *)
  getNodeParameter_operation : Result string;
  (** [getNodeParameter('options', i, {})] *)
  getNodeParameter_options : nat -> Result Options;
  (** [getNodeParameter('fileFormat', i, {})] *)
  getNodeParameter_fileFormat : nat -> Result JsParam;
  (** [getNodeParameter('binaryPropertyName', i)] *)
  getNodeParameter_binaryPropertyName : nat -> Result string;
  continueOnFail : bool;
  (** [helpers.assertBinaryData(i, name)] *)
  assertBinaryData : nat -> string -> Result IBinaryData;
  (** [helpers.getBinaryStream(id)]: the bytes the stream delivers *)
  getBinaryStream : string -> Result (list byte);
  (** [helpers.getBinaryPath(id)] *)
  getBinaryPath : string -> Result string
}.

(** The libraries and imported helpers. *)
Record Externals := {
  (** [csv-parse]: the error it throws when it is built with options it
      refuses, [to] apart *)
  csvInvalidOption : CsvParseOptions -> option JsError;
  (** [csv-parse]: its run over the whole input for the given delimiter,
      first line, byte-order mark and columns *)
  csvScan : CsvParseOptions -> list byte -> ParseRun;
  xlsxRead : XlsxData -> ParsingOptions -> Result WorkBook;
  xlsxReadFile : string -> ParsingOptions -> Result WorkBook;
  (** [xlsxUtils.sheet_to_json]; the sheet is [undefined] when the
      workbook has no entry of that name *)
  sheet_to_json : option WorkSheet -> Sheet2JSONOpts -> Result (list JsValue);
  (** [Buffer.from(data, BINARY_ENCODING)] and [buffer.toString()] *)
  Buffer_from : string -> list byte;
  Buffer_toString : list byte -> string;
  (** [isNaN] and [parseInt(_, 10)] on a string *)
  js_isNaN : string -> bool;
  js_parseInt : string -> float;
  (** [@utils/binary] *)
  convertJsonToSpreadsheetBinary :
    list INodeExecutionData -> JsParam -> Options -> Result IBinaryData
}.

End Node.
Arguments WorkBook : clear implicits.
Arguments Externals : clear implicits.

(** ** The node *)

Definition dquote : string := String "034"%char EmptyString.

(** [s === t] on strings. *)
Definition strictEq (s t : string) : bool := String.eqb s t.

(** [fileFormat === s] *)
Definition paramIs (p : JsParam) (s : string) : bool :=
  match p with
  | PStr t => strictEq t s
  | PEmptyObject => false
  end.

(** Lines 65-71: the [autodetect] hint is resolved from the binary's
    metadata. *)
Definition detectFileFormat (fileFormat : JsParam) (binaryData : IBinaryData)
  : JsParam :=
  if paramIs fileFormat "autodetect" &&
     (strictEq (mimeType binaryData) "text/csv" ||
      (strictEq (mimeType binaryData) "text/plain" &&
       match fileExtension binaryData with
       | Some ext => strictEq ext "csv"
       | None => false
       end))
  then PStr "csv"
  else fileFormat.

(** Lines 81-88: the [onRecord] callback; the result is what it pushes
    onto [rows]. *)
Definition onRecord (options : Options) (record : CsvRecord) : CsvRecord :=
  if negb (truthyBool (includeEmptyCells options)) then
    Object_fromEntries
      (filter (fun entry => notEmptyString entry.2) (Object_entries record))
  else record.

(** Lines 75-80: the options given to [createCSVParser]. *)
Definition csvParseOptions (options : Options) : CsvParseOptions :=
  {| csv_delimiter := delimiter options;
     csv_fromLine := fromLine options;
     csv_bom := enableBOM options;
     csv_to := match maxRowCount options with
               | Some n => if -1 <? n then Some n else None
               | None => None
               end;
     csv_columns := negb (headerRowIsFalse options) |}.

(** Lines 107-108. *)
Definition xlsxOptions (options : Options) : ParsingOptions :=
  {| xlsx_raw := rawData options;
     xlsx_type := if truthyBool (readAsString options)
                  then Some "string" else None |}.

(** Lines 169-191: one output item per row. *)
Definition rowItems (i : nat) (options : Options) (rows : list JsValue)
  : list INodeExecutionData :=
  if headerRowIsFalse options then
    (fun rowData =>
       {| json := VObj {[ "row" := rowData ]};
          binary := None;
          pairedItem := Some (PairedOne {| item := i |}) |}) <$> rows
  else
    (fun rowData =>
       {| json := rowData;
          binary := None;
          pairedItem := Some (PairedOne {| item := i |}) |}) <$> rows.

(** Lines 194-201 and 236-241: the record that stands for a failure. *)
Definition errorItem (error : JsError) (paired : PairedItem)
  : INodeExecutionData :=
  {| json := VObj {[ "error" := VStr (message error) ]};
     binary := None;
     pairedItem := Some paired |}.

(** Lines 122-128: the workbook has no sheet. *)
Definition EmptyWorkbookError (i : nat) : JsError :=
  NodeOperationError "Spreadsheet does not have any sheets!" i.

(** Lines 134-138: the requested sheet is not in the workbook. *)
Definition SheetNotFoundError (requested : string) (i : nat) : JsError :=
  NodeOperationError
    ("Spreadsheet does not contain sheet called " +:+ dquote +:+ requested
       +:+ dquote +:+ "!") i.

(** Modelled from the spec: [generatePairedItemData] of [@utils/utilities]
    is not among the sources; the reference it builds spans the whole
    input batch, one entry per input index. *)
Definition generatePairedItemData (length : nat) : PairedItem :=
  PairedMany ((fun i => {| item := i |}) <$> seq 0 length).

Section Execute.

Context {WorkSheet : Type}.
Variable this : IExecuteFunctions.
Variable lib : Externals WorkSheet.

(** Lines 144-159. *)
Definition sheetToJsonOptions (options : Options) : Sheet2JSONOpts :=
  {| s2j_range := match truthyString (range options) with
                  | Some r => Some (if js_isNaN lib r then inl r
                                    else inr (js_parseInt lib r))
                  | None => None
                  end;
     s2j_defval := if truthyBool (includeEmptyCells options)
                   then Some EmptyString else None;
     s2j_header := if headerRowIsFalse options then Some 1 else None |}.

(** [createCSVParser] of [csv-parse], a dependency that is not among the
    sources.  Scanning the bytes is left to the collaborator; the [to]
    option is modelled as the package handles it: a [to] that is not
    above 0 is refused when the parser is built, and with [to = k] the
    parser stops once it has handled [k] records. *)
Definition createCSVParser (o : CsvParseOptions)
  : Result (list byte -> ParseRun) :=
  match csvInvalidOption lib o with
  | Some error => Throw error
  | None =>
      match csv_to o with
      | Some k =>
          if k <=? 0 then Throw (InvalidToOption k)
          else Ok (fun content =>
                     stopAfter (Z.to_nat k) (csvScan lib (withTo None o) content))
      | None => Ok (csvScan lib (withTo None o))
      end
  end.

(** Lines 81-88, for a whole run: what [rows] holds when the parser has
    stopped. *)
Definition pushedRows (options : Options) (run : ParseRun) : list JsValue :=
  (fun record => recordValue (onRecord options record)) <$> handled run.

(** Lines 90-104: the bytes written to the parser; they come from the
    binary stream when the payload is stored by id, from the inline data
    otherwise. *)
Definition csvContent (binaryData : IBinaryData) : Result (list byte) :=
  match truthyString (id binaryData) with
  | Some binaryId => getBinaryStream this binaryId
  | None => Ok (Buffer_from lib (data binaryData))
  end.

(** Lines 74-104: the CSV path.  The parser is built first.  [onRecord]
    returns nothing, so the parser's readable side stays empty until the
    parser stops, and [rows] holds every handled record by then.

    Stored payload (lines 90-100): the stream is piped into the parser
    and the wait ends with the parser's error, if it emits one, and with
    its becoming readable otherwise.  [getBinaryStream] stands for a
    stream that delivers its bytes and ends; a source stream that breaks
    off is outside this model.

    Inline payload (lines 101-104): the data is written to the parser
    and no listener is registered, so an error the parser emits is not
    thrown here and [rows] holds what was handled before it. *)
Definition csvRows (options : Options) (binaryData : IBinaryData)
  : Result (list JsValue) :=
  parser <- createCSVParser (csvParseOptions options);;
  match truthyString (id binaryData) with
  | Some binaryId =>
      stream <- getBinaryStream this binaryId;;
      match parseError (parser stream) with
      | Some error => Throw error
      | None => Ok (pushedRows options (parser stream))
      end
  | None =>
      Ok (pushedRows options (parser (Buffer_from lib (data binaryData))))
  end.

(** Lines 106-119: loading the workbook. *)
Definition loadWorkbook (options : Options) (binaryData : IBinaryData)
  : Result (WorkBook WorkSheet) :=
  match truthyString (id binaryData) with
  | Some binaryId =>
      binaryPath <- getBinaryPath this binaryId;;
      xlsxReadFile lib binaryPath (xlsxOptions options)
  | None =>
      let binaryDataBuffer := Buffer_from lib (data binaryData) in
      xlsxRead lib
        (if truthyBool (readAsString options)
         then XlsxString (Buffer_toString lib binaryDataBuffer)
         else XlsxBuffer binaryDataBuffer)
        (xlsxOptions options)
  end.

(** Lines 121-141: the sheet to convert. *)
Definition selectSheet (i : nat) (options : Options)
    (workbook : WorkBook WorkSheet) : Result string :=
  match SheetNames workbook with
  | [] => Throw (EmptyWorkbookError i)
  | first :: _ =>
      match truthyString (sheetName options) with
      | Some requested =>
          if bool_decide (requested ∈ SheetNames workbook)
          then Ok requested
          else Throw (SheetNotFoundError requested i)
      | None => Ok first
      end
  end.

(** Lines 106-161: the spreadsheet path up to the converted rows. *)
Definition sheetRows (i : nat) (options : Options) (binaryData : IBinaryData)
  : Result (list JsValue) :=
  workbook <- loadWorkbook options binaryData;;
  name <- selectSheet i options workbook;;
  sheet_to_json lib (Sheets workbook !! name) (sheetToJsonOptions options).

(** The CSV branch of the [try] body with the pushes that follow it. *)
Definition csvItems (i : nat) (options : Options) (binaryData : IBinaryData)
  : Result (list INodeExecutionData) :=
  rows <- csvRows options binaryData;;
  Ok (rowItems i options rows).

(** The spreadsheet branch: no row means [continue], nothing is pushed. *)
Definition sheetItems (i : nat) (options : Options) (binaryData : IBinaryData)
  : Result (list INodeExecutionData) :=
  rows <- sheetRows i options binaryData;;
  if (length rows =? 0)%nat then Ok []
  else Ok (rowItems i options rows).

(** Lines 63-191: from the resolved parameters to the pushes. *)
Definition extractItem (i : nat) (options : Options) (fileFormat : JsParam)
    (binaryData : IBinaryData) : Result (list INodeExecutionData) :=
  let fileFormat := detectFileFormat fileFormat binaryData in
  if paramIs fileFormat "csv" then csvItems i options binaryData
  else sheetItems i options binaryData.

(** Lines 58-191: the body of the [try] for item [i]; the result is what
    it pushes onto [newItems]. *)
Definition fromFileItem (i : nat) : Result (list INodeExecutionData) :=
  options <- getNodeParameter_options this i;;
  fileFormat <- getNodeParameter_fileFormat this i;;
  binaryPropertyName <- getNodeParameter_binaryPropertyName this i;;
  binaryData <- assertBinaryData this i binaryPropertyName;;
  extractItem i options fileFormat binaryData.

(** Lines 56-206: the loop over the items, with [newItems] threaded
    through. *)
Fixpoint fromFileLoop (indices : list nat) (newItems : list INodeExecutionData)
  : Result (list INodeExecutionData) :=
  match indices with
  | [] => Ok newItems
  | i :: rest =>
      match fromFileItem i with
      | Ok pushed => fromFileLoop rest (newItems ++ pushed)
      | Throw error =>
          if continueOnFail this then
            fromFileLoop rest
              (newItems ++ [errorItem error (PairedOne {| item := i |})])
          else Throw (wrapError error i)
      end
  end.

(** Lines 214-233: the body of the [try] of the write direction; the
    result is the item it pushes. *)
Definition toFileBody (items : list INodeExecutionData)
    (pairedItem : PairedItem) : Result INodeExecutionData :=
  binaryPropertyName <- getNodeParameter_binaryPropertyName this 0%nat;;
  fileFormat <- getNodeParameter_fileFormat this 0%nat;;
  options <- getNodeParameter_options this 0%nat;;
  binaryData <- convertJsonToSpreadsheetBinary lib items fileFormat options;;
  Ok {| json := VObj ∅;
        binary := Some {[ binaryPropertyName := binaryData ]};
        pairedItem := Some pairedItem |}.

(** Lines 212-245: the write direction. *)
Definition toFile (items : list INodeExecutionData)
  : Result (list INodeExecutionData) :=
  let pairedItem := generatePairedItemData (length items) in
  match toFileBody items pairedItem with
  | Ok newItem => Ok [newItem]
  | Throw error =>
      if continueOnFail this then Ok [errorItem error pairedItem]
      else Throw error
  end.

(** Lines 49-249. *)
Definition execute : Result (list (list INodeExecutionData)) :=
  let items := getInputData this in
  operation <- getNodeParameter_operation this;;
  if strictEq operation "fromFile" then
    newItems <- fromFileLoop (seq 0 (length items)) [];;
    Ok [newItems]
  else if strictEq operation "toFile" then
    newItems <- toFile items;;
    Ok [newItems]
  else Ok [[]].

End Execute.

(** ** Notions used by the statements *)

#[global] Instance IPairedItemData_eq_dec : EqDecision IPairedItemData.
Proof. solve_decision. Defined.

#[global] Instance PairedItem_eq_dec : EqDecision PairedItem.
Proof. solve_decision. Defined.

(** [needle] occurs in [text] as a contiguous piece. *)
Definition contains (needle text : string) : Prop :=
  exists before after, text = before +:+ needle +:+ after.

(** The character [c] occurs in [s]. *)
Fixpoint occurs (c : ascii) (s : string) : bool :=
  match s with
  | EmptyString => false
  | String d rest => Ascii.eqb c d || occurs c rest
  end.

(** The binary's metadata says CSV (lines 67-68). *)
Definition csvMetadata (binaryData : IBinaryData) : Prop :=
  mimeType binaryData = "text/csv" \/
  (mimeType binaryData = "text/plain" /\
   fileExtension binaryData = Some "csv").

(** The item is routed to the spreadsheet path (line 73 is false). *)
Definition spreadsheetPath (fileFormat : JsParam) (binaryData : IBinaryData)
  : Prop :=
  paramIs (detectFileFormat fileFormat binaryData) "csv" = false.

(** The output item is paired with the single input index [i]. *)
Definition pairedWith (i : nat) (it : INodeExecutionData) : Prop :=
  pairedItem it = Some (PairedOne {| item := i |}).

#[global] Instance pairedWith_dec (i : nat) (it : INodeExecutionData)
  : Decision (pairedWith i it).
Proof. unfold pairedWith. apply _. Defined.


Section Notions.

Context {WorkSheet : Type}.
Variable this : IExecuteFunctions.
Variable lib : Externals WorkSheet.

(** The parameters of item [i] and its binary are read without a throw. *)
Definition itemResolves (i : nat) (options : Options) (fileFormat : JsParam)
    (binaryData : IBinaryData) : Prop :=
  getNodeParameter_options this i = Ok options /\
  getNodeParameter_fileFormat this i = Ok fileFormat /\
  exists binaryPropertyName,
    getNodeParameter_binaryPropertyName this i = Ok binaryPropertyName /\
    assertBinaryData this i binaryPropertyName = Ok binaryData.

(** What item [i] adds to [newItems] when failures are turned into
    records. *)
Definition itemOutcome (i : nat) : list INodeExecutionData :=
  match fromFileItem this lib i with
  | Ok pushed => pushed
  | Throw error => [errorItem error (PairedOne {| item := i |})]
  end.

End Notions.

(** ** Sample collaborators

    A small CSV scanner (lines end in LF, cells are separated by commas,
    the first line names the columns when [columns] is set, a line of
    another width than the first is an error), a spreadsheet engine
    that always loads one given workbook whose sheets are lists of rows,
    and a runtime with the same parameters for every item. *)
Module Sample.

Fixpoint splitBytes (sep : byte) (bs : list byte) : list (list byte) :=
  match bs with
  | [] => [[]]
  | b :: rest =>
      if Byte.eqb b sep then [] :: splitBytes sep rest
      else match splitBytes sep rest with
           | cur :: more => (b :: cur) :: more
           | [] => [[b]]
           end
  end.

Definition notNil (l : list byte) : bool :=
  match l with
  | [] => false
  | _ => true
  end.

Definition table (content : list byte) : list (list string) :=
  (fun line => String.string_of_list_byte <$> splitBytes x2c line)
    <$> List.filter notNil (splitBytes x0a content).

(** The records of the lines, up to the first line that has not the
    width of the first line of the input. *)
Fixpoint scanLines (width : nat) (make : list string -> CsvRecord)
    (lines : list (list string)) : ParseRun :=
  match lines with
  | [] => {| handled := []; parseError := None |}
  | cells :: rest =>
      if (length cells =? width)%nat then
        let run := scanLines width make rest in
        {| handled := make cells :: handled run;
           parseError := parseError run |}
      else {| handled := [];
              parseError := Some (plainError "Invalid Record Length") |}
  end.

Definition scan (o : CsvParseOptions) (content : list byte) : ParseRun :=
  match table content with
  | [] => {| handled := []; parseError := None |}
  | first :: body =>
      if csv_columns o then
        scanLines (length first)
          (fun cells =>
             RecordObject (list_to_map (zip first (VStr <$> cells))))
          body
      else
        scanLines (length first) (fun cells => RecordArray (VStr <$> cells))
          (first :: body)
  end.

Definition engines (workbook : Result (WorkBook (list JsValue)))
    (serialized : Result IBinaryData) : Externals (list JsValue) :=
  {| csvInvalidOption := fun _ => None;
     csvScan := scan;
     xlsxRead := fun _ _ => workbook;
     xlsxReadFile := fun _ _ => workbook;
     sheet_to_json := fun sheet _ => Ok (default [] sheet);
     Buffer_from := String.list_byte_of_string;
     Buffer_toString := String.string_of_list_byte;
     js_isNaN := fun _ => true;
     js_parseInt := fun _ => 0%float;
     convertJsonToSpreadsheetBinary := fun _ _ _ => serialized |}.

Definition runtime (items : list INodeExecutionData) (operation : string)
    (options : Options) (fileFormat : string)
    (binaryOf : nat -> Result IBinaryData) (continue : bool)
  : IExecuteFunctions :=
  {| getInputData := items;
     getNodeParameter_operation := Ok operation;
     getNodeParameter_options := fun _ => Ok options;
     getNodeParameter_fileFormat := fun _ => Ok (PStr fileFormat);
     getNodeParameter_binaryPropertyName := fun _ => Ok "data";
     continueOnFail := continue;
     assertBinaryData := fun i _ => binaryOf i;
     getBinaryStream := fun _ => Throw (plainError "no stream");
     getBinaryPath := fun _ => Throw (plainError "no path") |}.

Definition noOptions : Options :=
  {| delimiter := None; fromLine := None; enableBOM := None;
     maxRowCount := None; headerRow := None; includeEmptyCells := None;
     rawData := None; readAsString := None; sheetName := None;
     range := None |}.

Definition inputItem : INodeExecutionData :=
  {| json := VObj ∅; binary := None; pairedItem := None |}.

Definition csvBinary (text : string) : IBinaryData :=
  {| data := text; mimeType := "text/csv"; fileExtension := Some "csv";
     id := None |}.

Definition xlsxBinary : IBinaryData :=
  {| data := "PK";
     mimeType :=
       "application/vnd.openxmlformats-officedocument.spreadsheetml.sheet";
     fileExtension := Some "xlsx"; id := None |}.

Definition LF : string := String "010"%char EmptyString.

Definition withSheetName (name : string) : Options :=
  {| delimiter := None; fromLine := None; enableBOM := None;
     maxRowCount := None; headerRow := None; includeEmptyCells := None;
     rawData := None; readAsString := None; sheetName := Some name;
     range := None |}.

Definition emptyWorkbook : WorkBook (list JsValue) :=
  {| SheetNames := []; Sheets := ∅ |}.

Definition person (name city : string) : JsValue :=
  VObj (<[ "name" := VStr name ]> {[ "city" := VStr city ]}).

Definition twoSheets : WorkBook (list JsValue) :=
  {| SheetNames := ["Sheet1"; "Data"];
     Sheets := <[ "Sheet1" := [] ]>
                 {[ "Data" := [person "Ada" "London"; person "Alan" "Wilmslow"] ]} |}.

Definition unused {A : Type} : Result A := Throw (plainError "unused").

(** One spreadsheet item, read with the given options and workbook. *)
Definition sheetReader (options : Options) : IExecuteFunctions :=
  runtime [inputItem] "fromFile" options "xlsx" (fun _ => Ok xlsxBinary) false.

Definition sheetEngines (workbook : WorkBook (list JsValue))
  : Externals (list JsValue) :=
  engines (Ok workbook) unused.

(** Three CSV items of which the one at index 1 has no binary. *)
Definition peopleCsv : string :=
  "name,city" +:+ LF +:+ "Ada,London" +:+ LF.

Definition middleFails (continue : bool) : IExecuteFunctions :=
  runtime [inputItem; inputItem; inputItem] "fromFile" noOptions "autodetect"
    (fun i => if (i =? 1)%nat then Throw (plainError "no binary data")
              else Ok (csvBinary peopleCsv))
    continue.

(** CSV readers. *)
Definition csvOptions (header includeEmpty : option bool) (maxRows : option Z)
  : Options :=
  {| delimiter := None; fromLine := None; enableBOM := None;
     maxRowCount := maxRows; headerRow := header;
     includeEmptyCells := includeEmpty;
     rawData := None; readAsString := None; sheetName := None;
     range := None |}.

Definition csvReader (options : Options) (text : string) : IExecuteFunctions :=
  runtime [inputItem] "fromFile" options "csv" (fun _ => Ok (csvBinary text))
    false.

Definition csvEngines : Externals (list JsValue) := engines unused unused.

Definition gappedLine : string := "a,,b" +:+ LF.

Definition hundredRows : string :=
  "n" +:+ LF +:+ fold_right String.append EmptyString (replicate 100 ("x" +:+ LF)).

(** The write direction and reading its output back. *)
Definition record (fields : JsValue) : INodeExecutionData :=
  {| json := fields; binary := None; pairedItem := None |}.

Definition people : list INodeExecutionData :=
  [record (person "Ada" "London"); record (person "Alan" "Wilmslow")].

Definition writer (continue : bool) : IExecuteFunctions :=
  runtime people "toFile" noOptions "xlsx" (fun _ => unused) continue.

Definition written : INodeExecutionData :=
  {| json := VObj ∅;
     binary := Some {[ "data" := xlsxBinary ]};
     pairedItem := Some (generatePairedItemData 2) |}.


Definition peopleBook : WorkBook (list JsValue) :=
  {| SheetNames := ["Sheet"];
     Sheets := {[ "Sheet" := json <$> people ]} |}.

Definition codec : Externals (list JsValue) :=
  engines (Ok peopleBook) (Ok xlsxBinary).

End Sample.

(** ** The node's description *)

(** The property lists imported from [../description]; they are not
    among the sources. *)
Record DescriptionProperties := {
  operationProperties : list JsValue;
  fromFileProperties : list JsValue;
  fromFileV2Properties : list JsValue;
  toFileProperties : list JsValue;
  optionsProperties : list JsValue
}.

(** Lines 29-47: the constructor; the result is [this.description].  The
    properties written after the spread replace those of
    [baseDescription]. *)
Definition SpreadsheetFileV2 (parts : DescriptionProperties)
    (baseDescription : gmap string JsValue) : gmap string JsValue :=
  <[ "properties" :=
       VArr (operationProperties parts ++ fromFileProperties parts
             ++ fromFileV2Properties parts ++ toFileProperties parts
             ++ optionsProperties parts) ]>
  (<[ "outputs" := VArr [VStr "main"] ]>
  (<[ "inputs" := VArr [VStr "main"] ]>
  (<[ "defaults" :=
        VObj (<[ "name" := VStr "Spreadsheet File" ]>
                {[ "color" := VStr "#2244FF" ]}) ]>
  (<[ "version" := VNum 2%float ]> baseDescription)))).

(** The keys the constructor writes. *)
Definition ownKeys : list string :=
  ["version"; "defaults"; "inputs"; "outputs"; "properties"].

(** ** The cloud-plans accessors

    [packages/editor-ui/src/api/cloudPlans.ts].  [get] and [post] of
    [@/utils/apiUtils] are not among the sources: a call to them is
    represented by the request it makes, and the promise it returns is
    the accessor's result. *)
Inductive ApiCall : Type :=
| get (baseURL endpoint : string)
| post (baseURL endpoint : string).

Section CloudPlans.

(** [IRestApiContext] is declared in [@/Interface]; the accessors read
    its [baseUrl] only. *)
Context {IRestApiContext : Type}.
Variable baseUrl : IRestApiContext -> string.

Definition getCurrentPlan (context : IRestApiContext) : ApiCall :=
  get (baseUrl context) "/admin/cloud-plan".

Definition getCurrentUsage (context : IRestApiContext) : ApiCall :=
  get (baseUrl context) "/cloud/limits".

Definition getCloudUserInfo (context : IRestApiContext) : ApiCall :=
  get (baseUrl context) "/cloud/proxy/user/me".

Definition confirmEmail (context : IRestApiContext) : ApiCall :=
  post (baseUrl context) "/cloud/proxy/user/resend-confirmation-email".

Definition getAdminPanelLoginCode (context : IRestApiContext) : ApiCall :=
  get (baseUrl context) "/cloud/proxy/login/code".

Definition getLeadEnrichmentTemplates (context : IRestApiContext) : ApiCall :=
  get (baseUrl context) "/cloud/proxy/templates".

End CloudPlans.

(** The six exported accessors, to quantify over them. *)
Inductive CloudAccessor : Type :=
| GetCurrentPlan
| GetCurrentUsage
| GetCloudUserInfo
| ConfirmEmail
| GetAdminPanelLoginCode
| GetLeadEnrichmentTemplates.

Definition accessorCall {IRestApiContext : Type}
    (baseUrl : IRestApiContext -> string) (accessor : CloudAccessor)
    (context : IRestApiContext) : ApiCall :=
  match accessor with
  | GetCurrentPlan => getCurrentPlan baseUrl context
  | GetCurrentUsage => getCurrentUsage baseUrl context
  | GetCloudUserInfo => getCloudUserInfo baseUrl context
  | ConfirmEmail => confirmEmail baseUrl context
  | GetAdminPanelLoginCode => getAdminPanelLoginCode baseUrl context
  | GetLeadEnrichmentTemplates => getLeadEnrichmentTemplates baseUrl context
  end.

Definition callBase (call : ApiCall) : string :=
  match call with
  | get baseURL _ => baseURL
  | post baseURL _ => baseURL
  end.

Definition isPost (call : ApiCall) : bool :=
  match call with
  | get _ _ => false
  | post _ _ => true
  end.

(** ** Further notions and samples *)

(** The row as the output record holds it (lines 173-189). *)
Definition rowJson (options : Options) (rowData : JsValue) : JsValue :=
  if headerRowIsFalse options then VObj {[ "row" := rowData ]} else rowData.

(** The value is an object none of whose properties is the empty
    string. *)
Definition objectWithoutEmptyStrings (value : JsValue) : Prop :=
  exists kept : gmap string JsValue,
    value = VObj kept /\
    forall k, kept !! k <> Some (VStr EmptyString).

Module Fixtures.

(** Items with a fixed format hint and binary. *)
Definition reader (count : nat) (fileFormat : string)
    (binaryData : IBinaryData) (continue : bool) : IExecuteFunctions :=
  Sample.runtime (replicate count Sample.inputItem) "fromFile"
    Sample.noOptions fileFormat (fun _ => Ok binaryData) continue.

(** A payload stored by id. *)
Definition stored (binaryId mime : string) : IBinaryData :=
  {| data := EmptyString; mimeType := mime; fileExtension := None;
     id := Some binaryId |}.

Definition failingSerializer : Externals (list JsValue) :=
  Sample.engines Sample.unused (Throw (plainError "cannot serialize")).

Definition parts : DescriptionProperties :=
  {| operationProperties := [VStr "operation"];
     fromFileProperties := [VStr "fileFormat"; VStr "binaryPropertyName"];
     fromFileV2Properties := [];
     toFileProperties := [VStr "fileFormat"];
     optionsProperties := [VStr "options"] |}.

Definition base : gmap string JsValue :=
  <[ "displayName" := VStr "Spreadsheet File" ]>
    {[ "version" := VNum 1%float ]}.

(** A runtime whose one binary is stored by id: the stream delivers
    [text] and the file is at a path made of the id. *)
Definition storedReader (text mime : string) (continue : bool)
  : IExecuteFunctions :=
  {| getInputData := [Sample.inputItem];
     getNodeParameter_operation := Ok "fromFile";
     getNodeParameter_options := fun _ => Ok Sample.noOptions;
     getNodeParameter_fileFormat := fun _ => Ok (PStr "autodetect");
     getNodeParameter_binaryPropertyName := fun _ => Ok "data";
     continueOnFail := continue;
     assertBinaryData := fun _ _ => Ok (stored "file-1" mime);
     getBinaryStream := fun _ => Ok (String.list_byte_of_string text);
     getBinaryPath := fun binaryId => Ok ("/binary/" +:+ binaryId) |}.

(** A CSV text whose third line is short of a cell. *)
Definition brokenCsv : string :=
  "name,city" +:+ Sample.LF +:+ "Ada,London" +:+ Sample.LF
    +:+ "Alan" +:+ Sample.LF.

(** What [Sample.middleFails true] returns. *)
Definition adaRow (i : nat) : INodeExecutionData :=
  {| json := Sample.person "Ada" "London"; binary := None;
     pairedItem := Some (PairedOne {| item := i |}) |}.

Definition middleOutputs : list (list INodeExecutionData) :=
  [[ adaRow 0;
     errorItem (plainError "no binary data") (PairedOne {| item := 1 |});
     adaRow 2 ]].

(** An empty batch. *)
Definition nobody (operation : string) : IExecuteFunctions :=
  Sample.runtime [] operation Sample.noOptions "xlsx"
    (fun _ => Sample.unused) false.

End Fixtures.

(** ** Basic facts *)

Lemma strictEq_true (s t : string) : strictEq s t = true <-> s = t.
Proof. apply String.eqb_eq. Qed.

Lemma strictEq_false (s t : string) : strictEq s t = false <-> s <> t.
Proof. apply String.eqb_neq. Qed.

Lemma truthyString_Some (s : option string) (t : string) :
  truthyString s = Some t <-> s = Some t /\ t <> EmptyString.
Proof.
  destruct s as [[|c r]|]; simpl; split.
  - discriminate.
  - intros [E N]. inversion E; subst. contradiction.
  - intros E. inversion E; subst. split; [reflexivity | discriminate].
  - intros [E _]. exact E.
  - discriminate.
  - intros [E _]. discriminate.
Qed.

Lemma truthyString_None (s : option string) :
  truthyString s = None <-> s = None \/ s = Some EmptyString.
Proof.
  destruct s as [[|c r]|]; simpl; split; auto; try discriminate.
  - intros [E | E]; discriminate.
Qed.

Lemma occurs_app (c : ascii) (s t : string) :
  occurs c (s +:+ t) = occurs c s || occurs c t.
Proof.
  induction s as [|d s IH]; simpl; [reflexivity |].
  rewrite IH. apply orb_assoc.
Qed.

(** A character of the needle is a character of the text. *)
Lemma contains_occurs (c : ascii) (needle text : string) :
  contains needle text -> occurs c needle = true -> occurs c text = true.
Proof.
  intros (before & after & ->) Hc.
  rewrite !occurs_app, Hc. apply orb_true_iff. right. reflexivity.
Qed.

Lemma SheetNotFoundError_names (requested : string) (i : nat) :
  contains requested (message (SheetNotFoundError requested i)).
Proof.
  exists ("Spreadsheet does not contain sheet called " +:+ dquote).
  exists (dquote +:+ "!").
  reflexivity.
Qed.

Lemma detect_csvMetadata (binaryData : IBinaryData) :
  csvMetadata binaryData ->
  detectFileFormat (PStr "autodetect") binaryData = PStr "csv".
Proof.
  unfold csvMetadata, detectFileFormat. simpl.
  intros [E | [E1 E2]].
  - apply strictEq_true in E. rewrite E. reflexivity.
  - rewrite E2. apply strictEq_true in E1. rewrite E1.
    rewrite orb_true_r. reflexivity.
Qed.

Lemma detect_other (binaryData : IBinaryData) :
  ~ csvMetadata binaryData ->
  detectFileFormat (PStr "autodetect") binaryData = PStr "autodetect".
Proof.
  unfold csvMetadata, detectFileFormat. simpl. intros N.
  destruct (strictEq (mimeType binaryData) "text/csv") eqn:E1.
  { apply strictEq_true in E1. tauto. }
  destruct (strictEq (mimeType binaryData) "text/plain") eqn:E2;
    [| reflexivity].
  apply strictEq_true in E2.
  destruct (fileExtension binaryData) as [ext|] eqn:E3; [| reflexivity].
  destruct (strictEq ext "csv") eqn:E4; [| reflexivity].
  apply strictEq_true in E4. subst ext. tauto.
Qed.

Section Facts.

Context {WorkSheet : Type}.
Variable this : IExecuteFunctions.
Variable lib : Externals WorkSheet.

Lemma fromFileItem_resolved i options fileFormat binaryData :
  itemResolves this i options fileFormat binaryData ->
  fromFileItem this lib i = extractItem this lib i options fileFormat binaryData.
Proof.
  intros (Ho & Hf & name & Hn & Hb).
  unfold fromFileItem. rewrite Ho, Hf, Hn. simpl. rewrite Hb. reflexivity.
Qed.

Lemma rowItems_paired i options rows it :
  it ∈ rowItems i options rows -> pairedWith i it.
Proof.
  unfold rowItems.
  destruct (headerRowIsFalse options);
    intros (row & -> & _)%list_elem_of_fmap; reflexivity.
Qed.

(** Whatever item [i] pushes is paired with [i]. *)
Lemma fromFileItem_paired i pushed it :
  fromFileItem this lib i = Ok pushed -> it ∈ pushed -> pairedWith i it.
Proof.
  unfold fromFileItem.
  destruct (getNodeParameter_options this i) as [options|]; [| discriminate].
  destruct (getNodeParameter_fileFormat this i) as [ff|]; [| discriminate].
  destruct (getNodeParameter_binaryPropertyName this i) as [name|];
    [| discriminate].
  simpl. destruct (assertBinaryData this i name) as [b|]; [| discriminate].
  simpl. unfold extractItem, csvItems, sheetItems.
  destruct (paramIs _ _).
  - destruct (csvRows this lib options b) as [rows|]; [| discriminate].
    simpl. intros [= <-]. apply rowItems_paired.
  - destruct (sheetRows this lib i options b) as [rows|]; [| discriminate].
    simpl. destruct (length rows =? 0)%nat.
    + intros [= <-] H. inversion H.
    + intros [= <-]. apply rowItems_paired.
Qed.

Lemma itemOutcome_paired i it :
  it ∈ itemOutcome this lib i -> pairedWith i it.
Proof.
  unfold itemOutcome.
  destruct (fromFileItem this lib i) as [pushed|error] eqn:E.
  - eapply fromFileItem_paired; eassumption.
  - intros ->%list_elem_of_singleton. reflexivity.
Qed.

Lemma pairedWith_inj i j it : pairedWith i it -> pairedWith j it -> i = j.
Proof. unfold pairedWith. intros -> [= ->]. reflexivity. Qed.

Lemma filter_itemOutcome_other i (indices : list nat) :
  i ∉ indices ->
  filter (pairedWith i) (flat_map (itemOutcome this lib) indices) = [].
Proof.
  induction indices as [|j rest IH]; intros Hi; [reflexivity |].
  simpl. rewrite filter_app, IH by set_solver.
  rewrite app_nil_r.
  assert (H := itemOutcome_paired j). revert H.
  generalize (itemOutcome this lib j). intros l H.
  induction l as [|x l IHl]; [reflexivity |].
  rewrite filter_cons_False.
  - apply IHl. intros it Hit. apply H. right. exact Hit.
  - intros Hx. assert (i = j) as ->.
    { eapply pairedWith_inj; [exact Hx | apply H; left]. }
    apply Hi. left.
Qed.

(** With continue-on-failure the loop never throws: every index adds
    its outcome. *)
Lemma fromFileLoop_continue (indices : list nat) (newItems : list INodeExecutionData) :
  continueOnFail this = true ->
  fromFileLoop this lib indices newItems =
    Ok (newItems ++ flat_map (itemOutcome this lib) indices).
Proof.
  intros Hc. revert newItems.
  induction indices as [|i rest IH]; intros newItems; simpl.
  - rewrite app_nil_r. reflexivity.
  - unfold itemOutcome at 1.
    destruct (fromFileItem this lib i) as [pushed|error].
    + rewrite IH, app_assoc. reflexivity.
    + rewrite Hc, IH, app_assoc. reflexivity.
Qed.

(** Indices that do not fail add their pushes, whatever the policy. *)
Lemma fromFileLoop_prefix (done rest : list nat) (newItems : list INodeExecutionData) :
  (forall j, j ∈ done -> exists pushed, fromFileItem this lib j = Ok pushed) ->
  fromFileLoop this lib (done ++ rest) newItems =
    fromFileLoop this lib rest
      (newItems ++ flat_map (itemOutcome this lib) done).
Proof.
  revert newItems.
  induction done as [|i done IH]; intros newItems Hok; simpl.
  - rewrite app_nil_r. reflexivity.
  - destruct (Hok i) as [pushed Hp]; [left |].
    unfold itemOutcome at 1. rewrite Hp.
    rewrite IH, app_assoc; [reflexivity |].
    intros j Hj. apply Hok. right. exact Hj.
Qed.

Lemma seq_split_at (n i : nat) :
  (i < n)%nat -> seq 0 n = seq 0 i ++ i :: seq (S i) (n - S i).
Proof.
  intros Hi. replace n with (i + S (n - S i))%nat at 1 by lia.
  rewrite seq_app. simpl. reflexivity.
Qed.

End Facts.

(** ** Format detection *)

Section Claims.

Context {WorkSheet : Type}.
Variable this : IExecuteFunctions.
Variable lib : Externals WorkSheet.

(** C6: an item whose [fileFormat] is [autodetect] goes to the CSV path
    when its MIME type is [text/csv], or [text/plain] with the extension
    [csv], and to the spreadsheet path otherwise; detection is a total
    function with one of two results, it has no failure. *)
Theorem autodetect_routing (i : nat) (options : Options)
    (binaryData : IBinaryData) :
  itemResolves this i options (PStr "autodetect") binaryData ->
  (csvMetadata binaryData ->
     detectFileFormat (PStr "autodetect") binaryData = PStr "csv" /\
     fromFileItem this lib i = csvItems this lib i options binaryData) /\
  (~ csvMetadata binaryData ->
     detectFileFormat (PStr "autodetect") binaryData = PStr "autodetect" /\
     fromFileItem this lib i = sheetItems this lib i options binaryData).
Proof.
  intros Hr. rewrite (fromFileItem_resolved this lib _ _ _ _ Hr).
  unfold extractItem. split; intros Hm.
  - rewrite (detect_csvMetadata _ Hm). split; reflexivity.
  - rewrite (detect_other _ Hm). split; reflexivity.
Qed.

(** ** Operation dispatch *)

(** C10: an operation that is neither [fromFile] nor [toFile] returns
    one empty output list, without a throw, whatever the input items and
    the other collaborators are. *)
Theorem other_operation_is_empty (operation : string) :
  getNodeParameter_operation this = Ok operation ->
  operation <> "fromFile" ->
  operation <> "toFile" ->
  execute this lib = Ok [[]].
Proof.
  intros Ho N1 N2. unfold execute. rewrite Ho. simpl.
  apply strictEq_false in N1, N2. rewrite N1, N2. reflexivity.
Qed.

(** ** Sheet selection *)

Lemma sheetItems_throw i options binaryData error :
  sheetRows this lib i options binaryData = Throw error ->
  sheetItems this lib i options binaryData = Throw error.
Proof. unfold sheetItems. intros ->. reflexivity. Qed.

Lemma fromFileItem_sheetItems i options fileFormat binaryData :
  itemResolves this i options fileFormat binaryData ->
  spreadsheetPath fileFormat binaryData ->
  fromFileItem this lib i = sheetItems this lib i options binaryData.
Proof.
  intros Hr Hp. rewrite (fromFileItem_resolved this lib _ _ _ _ Hr).
  unfold extractItem. unfold spreadsheetPath in Hp. rewrite Hp. reflexivity.
Qed.

(** C4: when the loaded workbook has no sheet the item fails with the
    empty-workbook error, for every value of the options. *)
Theorem empty_workbook_fails (i : nat) (options : Options)
    (fileFormat : JsParam) (binaryData : IBinaryData)
    (workbook : WorkBook WorkSheet) :
  itemResolves this i options fileFormat binaryData ->
  spreadsheetPath fileFormat binaryData ->
  loadWorkbook this lib options binaryData = Ok workbook ->
  SheetNames workbook = [] ->
  fromFileItem this lib i = Throw (EmptyWorkbookError i) /\
  message (EmptyWorkbookError i) = "Spreadsheet does not have any sheets!".
Proof.
  intros Hr Hp Hw Hs. split; [| reflexivity].
  rewrite (fromFileItem_sheetItems _ _ _ _ Hr Hp).
  apply sheetItems_throw. unfold sheetRows. rewrite Hw. simpl.
  unfold selectSheet. rewrite Hs. reflexivity.
Qed.

(** C3, amended: for a workbook with at least one sheet, a requested
    non-empty [sheetName] that is not among the sheet names makes the
    item fail with the sheet-not-found error, whose message contains the
    name; a requested name that is present is the sheet converted; with
    no [sheetName] (or an empty one) the first sheet is converted. *)
Theorem sheet_selection (i : nat) (options : Options) (fileFormat : JsParam)
    (binaryData : IBinaryData) (workbook : WorkBook WorkSheet)
    (first : string) (others : list string) :
  itemResolves this i options fileFormat binaryData ->
  spreadsheetPath fileFormat binaryData ->
  loadWorkbook this lib options binaryData = Ok workbook ->
  SheetNames workbook = first :: others ->
  (forall requested,
     sheetName options = Some requested -> requested <> EmptyString ->
     requested ∉ SheetNames workbook ->
     fromFileItem this lib i = Throw (SheetNotFoundError requested i) /\
     contains requested (message (SheetNotFoundError requested i))) /\
  (forall requested,
     sheetName options = Some requested -> requested <> EmptyString ->
     requested ∈ SheetNames workbook ->
     sheetRows this lib i options binaryData =
       sheet_to_json lib (Sheets workbook !! requested)
         (sheetToJsonOptions lib options)) /\
  (sheetName options = None \/ sheetName options = Some EmptyString ->
     sheetRows this lib i options binaryData =
       sheet_to_json lib (Sheets workbook !! first)
         (sheetToJsonOptions lib options)).
Proof.
  intros Hr Hp Hw Hs. repeat split.
  - rewrite (fromFileItem_sheetItems _ _ _ _ Hr Hp).
    apply sheetItems_throw. unfold sheetRows. rewrite Hw. simpl.
    unfold selectSheet. rewrite Hs.
    assert (Ht : truthyString (sheetName options) = Some requested)
      by (apply truthyString_Some; split; assumption).
    rewrite Ht, <- Hs, bool_decide_eq_false_2 by assumption. reflexivity.
  - apply SheetNotFoundError_names.
  - intros requested Hq Hne Hin. unfold sheetRows. rewrite Hw. simpl.
    unfold selectSheet. rewrite Hs.
    assert (Ht : truthyString (sheetName options) = Some requested)
      by (apply truthyString_Some; split; assumption).
    rewrite Ht, <- Hs, bool_decide_eq_true_2 by assumption. reflexivity.
  - intros Hn. apply truthyString_None in Hn.
    unfold sheetRows. rewrite Hw. simpl.
    unfold selectSheet. rewrite Hs, Hn. reflexivity.
Qed.

(** ** Empty sheets *)

(** C8: a spreadsheet item whose selected sheet converts to no row
    pushes nothing and throws nothing, and the loop goes on with the
    next index and the same [newItems]. *)
Theorem empty_sheet_is_skipped (i : nat) (options : Options)
    (fileFormat : JsParam) (binaryData : IBinaryData) :
  itemResolves this i options fileFormat binaryData ->
  spreadsheetPath fileFormat binaryData ->
  sheetRows this lib i options binaryData = Ok [] ->
  fromFileItem this lib i = Ok [] /\
  forall rest newItems,
    fromFileLoop this lib (i :: rest) newItems =
      fromFileLoop this lib rest newItems.
Proof.
  intros Hr Hp Hrows.
  assert (H : fromFileItem this lib i = Ok []).
  { rewrite (fromFileItem_sheetItems _ _ _ _ Hr Hp).
    unfold sheetItems. rewrite Hrows. reflexivity. }
  split; [exact H |].
  intros rest newItems. simpl. rewrite H, app_nil_r. reflexivity.
Qed.

(** ** Failure policy of the read direction *)

(** When the [try] body of item [i] throws in the read direction.  With
    continue-on-failure the output is the outcomes of the items before
    [i], one error record for [i] (its [error] field is the failure
    message, it is paired with [i], and it is the only output paired
    with [i]), then the outcomes of the items after [i].  Without it,
    and with no failure before [i], the operation throws the failure
    with item index [i]; the loop stops at [i] whatever indices remain. *)
Theorem fromFile_failure_policy (i : nat) (error : JsError) :
  getNodeParameter_operation this = Ok "fromFile" ->
  (i < length (getInputData this))%nat ->
  fromFileItem this lib i = Throw error ->
  (continueOnFail this = true ->
     json (errorItem error (PairedOne {| item := i |})) =
       VObj {[ "error" := VStr (message error) ]} /\
     pairedWith i (errorItem error (PairedOne {| item := i |})) /\
     execute this lib =
       Ok [flat_map (itemOutcome this lib) (seq 0 i)
           ++ [errorItem error (PairedOne {| item := i |})]
           ++ flat_map (itemOutcome this lib)
                (seq (S i) (length (getInputData this) - S i))] /\
     forall output,
       execute this lib = Ok [output] ->
       filter (pairedWith i) output =
         [errorItem error (PairedOne {| item := i |})]) /\
  (continueOnFail this = false ->
     (forall j, (j < i)%nat -> exists pushed, fromFileItem this lib j = Ok pushed) ->
     execute this lib = Throw (wrapError error i) /\
     itemIndex (wrapError error i) = Some i /\
     message (wrapError error i) = message error /\
     forall rest newItems,
       fromFileLoop this lib (i :: rest) newItems = Throw (wrapError error i)).
Proof.
  intros Hop Hi Hfail.
  assert (Hout : itemOutcome this lib i =
                 [errorItem error (PairedOne {| item := i |})]).
  { unfold itemOutcome. rewrite Hfail. reflexivity. }
  split.
  - intros Hc.
    assert (Hex : execute this lib =
       Ok [flat_map (itemOutcome this lib) (seq 0 i)
           ++ [errorItem error (PairedOne {| item := i |})]
           ++ flat_map (itemOutcome this lib)
                (seq (S i) (length (getInputData this) - S i))]).
    { unfold execute. rewrite Hop. simpl.
      rewrite (fromFileLoop_continue this lib _ _ Hc). simpl.
      rewrite (seq_split_at _ _ Hi) at 1.
      rewrite flat_map_app. simpl. rewrite Hout. reflexivity. }
    repeat split; [exact Hex |].
    intros output Ho. rewrite Hex in Ho. injection Ho as <-.
    rewrite filter_app.
    rewrite (filter_itemOutcome_other this lib i (seq 0 i)).
    2:{ rewrite list_elem_of_In, in_seq. lia. }
    rewrite app_nil_l, filter_cons_True by reflexivity.
    rewrite (filter_itemOutcome_other this lib i (seq (S i) _)).
    2:{ rewrite list_elem_of_In, in_seq. lia. }
    reflexivity.
  - intros Hc Hbefore.
    assert (Hstop : forall rest newItems,
      fromFileLoop this lib (i :: rest) newItems = Throw (wrapError error i)).
    { intros rest newItems. simpl. rewrite Hfail, Hc. reflexivity. }
    repeat split; [| exact Hstop].
    unfold execute. rewrite Hop. simpl.
    rewrite (seq_split_at _ _ Hi).
    rewrite (fromFileLoop_prefix this lib).
    + rewrite Hstop. reflexivity.
    + intros j Hj. apply Hbefore.
      rewrite list_elem_of_In, in_seq in Hj. lia.
Qed.

End Claims.

(** ** Empty cells of CSV records *)

Lemma notEmptyString_spec (value : JsValue) :
  notEmptyString value <-> value <> VStr EmptyString.
Proof.
  destruct value as [| | b | x | [|c s] | elems | props]; simpl;
    split; intros H; try exact I; try discriminate; contradiction.
Qed.

(** A record has one value per property. *)
Lemma Object_entries_functional (record : CsvRecord) (k : string)
    (v1 v2 : JsValue) :
  (k, v1) ∈ Object_entries record -> (k, v2) ∈ Object_entries record ->
  v1 = v2.
Proof.
  destruct record as [cells | fields]; simpl.
  - rewrite !elem_of_lookup_imap.
    intros (i & y & E1 & Hi) (j & z & E2 & Hj).
    injection E1 as -> ->. injection E2 as Hk ->.
    apply (inj pretty) in Hk. subst j. congruence.
  - rewrite !elem_of_map_to_list. congruence.
Qed.

(** Without [includeEmptyCells] the callback always pushes a plain
    object: the properties of the record whose value is not the empty
    string. *)
Lemma onRecord_lookup (options : Options) (record : CsvRecord) :
  truthyBool (includeEmptyCells options) = false ->
  exists kept : gmap string JsValue,
    onRecord options record = RecordObject kept /\
    forall k v,
      kept !! k = Some v <->
      (k, v) ∈ Object_entries record /\ v <> VStr EmptyString.
Proof.
  intros H. unfold onRecord. rewrite H. simpl.
  eexists. split; [reflexivity |]. intros k v.
  rewrite <- elem_of_list_to_map'.
  - rewrite elem_of_reverse, list_elem_of_filter. simpl.
    rewrite notEmptyString_spec. tauto.
  - intros v'. rewrite !elem_of_reverse, !list_elem_of_filter.
    intros [_ H1] [_ H2]. eapply Object_entries_functional; eassumption.
Qed.

Lemma onRecord_includeEmptyCells (options : Options) (record : CsvRecord) :
  truthyBool (includeEmptyCells options) = true ->
  onRecord options record = record.
Proof. intros H. unfold onRecord. rewrite H. reflexivity. Qed.

(** A keyed record loses exactly its empty-string entries. *)
Theorem keyed_row_drops_empty_strings (options : Options)
    (fields : gmap string JsValue) :
  truthyBool (includeEmptyCells options) = false ->
  exists kept : gmap string JsValue,
    onRecord options (RecordObject fields) = RecordObject kept /\
    kept = filter (fun entry => notEmptyString entry.2) fields /\
    forall k v,
      kept !! k = Some v <-> fields !! k = Some v /\ v <> VStr EmptyString.
Proof.
  intros H. destruct (onRecord_lookup options (RecordObject fields) H)
    as (kept & -> & Hkept).
  assert (Hk : forall k v,
    kept !! k = Some v <-> fields !! k = Some v /\ v <> VStr EmptyString).
  { intros k v. rewrite Hkept. simpl. rewrite elem_of_map_to_list. tauto. }
  exists kept. split; [reflexivity |]. split; [| exact Hk].
  apply map_eq. intros k. apply option_eq. intros v.
  rewrite Hk, map_lookup_filter_Some. simpl.
  rewrite notEmptyString_spec. tauto.
Qed.

(** A positional record becomes an object keyed by the positions of its
    cells that are not the empty string. *)
Lemma positional_row_becomes_object (options : Options)
    (cells : list JsValue) :
  truthyBool (includeEmptyCells options) = false ->
  exists kept : gmap string JsValue,
    onRecord options (RecordArray cells) = RecordObject kept /\
    forall k v,
      kept !! k = Some v <->
      exists i : nat,
        k = pretty i /\ cells !! i = Some v /\ v <> VStr EmptyString.
Proof.
  intros H. destruct (onRecord_lookup options (RecordArray cells) H)
    as (kept & -> & Hkept).
  exists kept. split; [reflexivity |]. intros k v.
  rewrite Hkept. simpl. rewrite elem_of_lookup_imap. split.
  - intros [(i & y & E & Hi) Hv]. injection E as -> ->. eauto.
  - intros (i & -> & Hi & Hv). eauto.
Qed.

(** C1: the empty-cell filter is applied to positional rows as well.  The
    record [a,,b] read without a header row is pushed as the array
    [a, '', b] when [includeEmptyCells] is set, and as the object
    [{0: a, 2: b}] when it is not. *)
Theorem positional_row_is_rewritten :
  onRecord (Sample.csvOptions (Some false) None None)
    (RecordArray [VStr "a"; VStr ""; VStr "b"]) =
    RecordObject (<[ "0" := VStr "a" ]> {[ "2" := VStr "b" ]}) /\
  execute
    (Sample.csvReader (Sample.csvOptions (Some false) None None)
       Sample.gappedLine)
    Sample.csvEngines =
    Ok [[ {| json := VObj {[ "row" :=
                      VObj (<[ "0" := VStr "a" ]> {[ "2" := VStr "b" ]}) ]};
             binary := None;
             pairedItem := Some (PairedOne {| item := 0 |}) |} ]] /\
  execute
    (Sample.csvReader (Sample.csvOptions (Some false) (Some true) None)
       Sample.gappedLine)
    Sample.csvEngines =
    Ok [[ {| json := VObj {[ "row" :=
                      VArr [VStr "a"; VStr ""; VStr "b"] ]};
             binary := None;
             pairedItem := Some (PairedOne {| item := 0 |}) |} ]].
Proof. repeat split; vm_compute; reflexivity. Qed.

(** ** The row cap of the CSV path *)

Lemma csv_to_uncapped (options : Options) :
  maxRowCount options = Some (-1) -> csv_to (csvParseOptions options) = None.
Proof. intros H. unfold csvParseOptions. simpl. rewrite H. reflexivity. Qed.

Lemma csv_to_capped (options : Options) (k : Z) :
  maxRowCount options = Some k -> -1 < k ->
  csv_to (csvParseOptions options) = Some k.
Proof.
  intros H Hk. unfold csvParseOptions. simpl. rewrite H.
  apply Z.ltb_lt in Hk. rewrite Hk. reflexivity.
Qed.

Lemma stopAfter_complete (k : nat) (records : list CsvRecord) :
  stopAfter k {| handled := records; parseError := None |} =
    {| handled := take k records; parseError := None |}.
Proof.
  unfold stopAfter. simpl.
  destruct (Nat.leb_spec k (length records)) as [H | H]; [reflexivity |].
  rewrite take_ge by lia. reflexivity.
Qed.

Section RowCap.

Context {WorkSheet : Type}.
Variable this : IExecuteFunctions.
Variable lib : Externals WorkSheet.

(** C5, amended: for a CSV payload, inline or stored, whose options the
    parser accepts and whose scan to the end handles [records] without
    an error.  With [maxRowCount = -1] no [to] is given and the rows
    are all the records (all 100 of 100).  With [maxRowCount = k] of 1
    or more the parser is given [to = k] and the rows are the first [k]
    records: extraction stops after exactly [k] rows (5 of 100 for
    [k = 5]), or after the last row when there are fewer. *)
Theorem maxRowCount_caps_rows (options : Options) (binaryData : IBinaryData)
    (content : list byte) (records : list CsvRecord) :
  csvInvalidOption lib (csvParseOptions options) = None ->
  (truthyString (id binaryData) = None /\
   content = Buffer_from lib (data binaryData)) \/
  (exists binaryId,
     truthyString (id binaryData) = Some binaryId /\
     getBinaryStream this binaryId = Ok content) ->
  csvScan lib (withTo None (csvParseOptions options)) content =
    {| handled := records; parseError := None |} ->
  (maxRowCount options = Some (-1) ->
     exists rows,
       csvRows this lib options binaryData = Ok rows /\
       rows = (fun r => recordValue (onRecord options r)) <$> records /\
       length rows = length records) /\
  (forall k, maxRowCount options = Some k -> 1 <= k ->
     exists rows,
       csvRows this lib options binaryData = Ok rows /\
       rows = (fun r => recordValue (onRecord options r))
                <$> take (Z.to_nat k) records /\
       length rows = Nat.min (Z.to_nat k) (length records)).
Proof.
  intros Hvalid Hpayload Hscan. split.
  - intros Hmax. eexists. split; [| split; [reflexivity |]].
    + unfold csvRows, createCSVParser.
      rewrite Hvalid, (csv_to_uncapped _ Hmax). simpl.
      destruct Hpayload as [[Hid ->] | (binaryId & Hid & Hstream)];
        rewrite Hid.
      * rewrite Hscan. reflexivity.
      * rewrite Hstream. simpl. rewrite Hscan. reflexivity.
    + apply length_fmap.
  - intros k Hmax Hk. eexists. split; [| split; [reflexivity |]].
    + unfold csvRows, createCSVParser.
      rewrite Hvalid, (csv_to_capped _ _ Hmax) by lia.
      destruct (Z.leb_spec k 0) as [H0 | _]; [lia |]. simpl.
      destruct Hpayload as [[Hid ->] | (binaryId & Hid & Hstream)];
        rewrite Hid.
      * rewrite Hscan, stopAfter_complete. reflexivity.
      * rewrite Hstream. simpl. rewrite Hscan, stopAfter_complete.
        reflexivity.
    + rewrite length_fmap. apply length_take.
Qed.

End RowCap.

(** The claim C5 as it is written fails at [maxRowCount = 0]: the value
    is above -1, so it is handed to the parser as [to = 0], which the
    parser refuses; extraction does not stop after 0 rows, the item
    fails. *)
Lemma zero_cap_fails :
  maxRowCount (Sample.csvOptions None None (Some 0)) = Some 0 /\
  csv_to (csvParseOptions (Sample.csvOptions None None (Some 0))) = Some 0 /\
  csvRows
    (Sample.csvReader (Sample.csvOptions None None (Some 0))
       Sample.hundredRows)
    Sample.csvEngines (Sample.csvOptions None None (Some 0))
    (Sample.csvBinary Sample.hundredRows) = Throw (InvalidToOption 0) /\
  execute
    (Sample.csvReader (Sample.csvOptions None None (Some 0))
       Sample.hundredRows)
    Sample.csvEngines =
    Throw (NodeOperationError (message (InvalidToOption 0)) 0).
Proof. repeat split; vm_compute; reflexivity. Qed.

(** ** The write direction *)

Lemma generatePairedItemData_spans (n : nat) :
  exists ps : list IPairedItemData,
    generatePairedItemData n = PairedMany ps /\
    length ps = n /\
    forall j, (j < n)%nat -> ps !! j = Some {| item := j |}.
Proof.
  eexists. split; [reflexivity |]. split.
  - rewrite length_fmap. apply length_seq.
  - intros j Hj. rewrite list_lookup_fmap, lookup_seq_lt by exact Hj.
    reflexivity.
Qed.

Section WriteDirection.

Context {WorkSheet : Type}.
Variable this : IExecuteFunctions.
Variable lib : Externals WorkSheet.

(** C7: in the write direction the output is one item.  When nothing
    fails it has an empty [json], carries under [binaryPropertyName] the
    payload that [convertJsonToSpreadsheetBinary] makes of the whole
    input batch, and is paired with the array of all input indices.
    When the body fails and continue-on-failure is set it is the error
    record: its [json] has the one field [error] with the failure
    message, it has no binary, and it is paired with the same array,
    which has one entry for every input index. *)
Theorem toFile_single_item :
  getNodeParameter_operation this = Ok "toFile" ->
  (forall name fileFormat options payload,
     getNodeParameter_binaryPropertyName this 0%nat = Ok name ->
     getNodeParameter_fileFormat this 0%nat = Ok fileFormat ->
     getNodeParameter_options this 0%nat = Ok options ->
     convertJsonToSpreadsheetBinary lib (getInputData this) fileFormat options
       = Ok payload ->
     execute this lib =
       Ok [[ {| json := VObj ∅;
                binary := Some {[ name := payload ]};
                pairedItem :=
                  Some (PairedMany
                          ((fun j => {| item := j |})
                             <$> seq 0 (length (getInputData this))))
             |} ]]) /\
  (forall error,
     toFileBody this lib (getInputData this)
       (generatePairedItemData (length (getInputData this))) = Throw error ->
     continueOnFail this = true ->
     execute this lib =
       Ok [[ {| json := VObj {[ "error" := VStr (message error) ]};
                binary := None;
                pairedItem :=
                  Some (PairedMany
                          ((fun j => {| item := j |})
                             <$> seq 0 (length (getInputData this))))
             |} ]]) /\
  length ((fun j => {| item := j |}) <$> seq 0 (length (getInputData this))) =
    length (getInputData this) /\
  (forall j, (j < length (getInputData this))%nat ->
     ((fun j => {| item := j |}) <$> seq 0 (length (getInputData this))) !! j =
       Some {| item := j |}).
Proof.
  intros Hop. split; [| split; [| split]].
  - intros name fileFormat options payload Hn Hf Ho Hp.
    unfold execute. rewrite Hop. simpl.
    unfold toFile, toFileBody. rewrite Hn, Hf, Ho. simpl. rewrite Hp.
    reflexivity.
  - intros error Hbody Hc.
    unfold execute. rewrite Hop. simpl.
    unfold toFile. rewrite Hbody, Hc. reflexivity.
  - rewrite length_fmap. apply length_seq.
  - intros j Hj. rewrite list_lookup_fmap, lookup_seq_lt by exact Hj.
    reflexivity.
Qed.

End WriteDirection.

(** ** Writing and reading back *)


Section ReadBack.

Context {WorkSheet : Type}.
Variable lib : Externals WorkSheet.


Lemma headerRowIsFalse_true options :
  headerRow options = Some false -> headerRowIsFalse options = true.
Proof. unfold headerRowIsFalse. intros ->. reflexivity. Qed.

Lemma headerRowIsFalse_false options :
  headerRow options <> Some false -> headerRowIsFalse options = false.
Proof.
  unfold headerRowIsFalse. destruct (headerRow options) as [[|]|]; congruence.
Qed.




End ReadBack.


(** ** The statements on the sample collaborators *)

Lemma sample_resolves items operation options fileFormat binaryOf continue i b :
  binaryOf i = Ok b ->
  itemResolves
    (Sample.runtime items operation options fileFormat binaryOf continue)
    i options (PStr fileFormat) b.
Proof.
  intros Hb. split; [reflexivity |]. split; [reflexivity |].
  exists "data". split; [reflexivity | exact Hb].
Qed.

(** A [text/csv] item with the [autodetect] hint takes the CSV path. *)
Lemma autodetect_routing_witness :
  fromFileItem (Sample.middleFails true) Sample.csvEngines 0 =
    csvItems (Sample.middleFails true) Sample.csvEngines 0 Sample.noOptions
      (Sample.csvBinary Sample.peopleCsv).
Proof.
  refine (proj2 (proj1 (autodetect_routing (Sample.middleFails true)
            Sample.csvEngines 0 Sample.noOptions
            (Sample.csvBinary Sample.peopleCsv) _) _)).
  - apply sample_resolves. reflexivity.
  - left. reflexivity.
Defined.

(** The operation [convert] returns one empty list. *)
Lemma other_operation_is_empty_witness :
  execute
    (Sample.runtime Sample.people "convert" Sample.noOptions "xlsx"
       (fun _ => Sample.unused) false)
    Sample.csvEngines = Ok [[]].
Proof.
  apply (other_operation_is_empty _ _ "convert");
    [reflexivity | discriminate | discriminate].
Defined.

(** A workbook without sheets, read with a [sheetName]. *)
Lemma empty_workbook_fails_witness :
  fromFileItem (Sample.sheetReader (Sample.withSheetName "Data"))
    (Sample.sheetEngines Sample.emptyWorkbook) 0 =
    Throw (EmptyWorkbookError 0) /\
  message (EmptyWorkbookError 0) = "Spreadsheet does not have any sheets!".
Proof.
  apply (empty_workbook_fails _ _ 0 (Sample.withSheetName "Data")
           (PStr "xlsx") Sample.xlsxBinary Sample.emptyWorkbook).
  - apply sample_resolves. reflexivity.
  - reflexivity.
  - reflexivity.
  - reflexivity.
Defined.

(** The claim C3 as it is written fails on a workbook without sheets: the
    requested name is not among its (zero) sheet names, and the item
    fails with the empty-workbook error, whose message does not contain
    the name. *)
Lemma missing_sheet_in_empty_workbook :
  sheetName (Sample.withSheetName "Data") = Some "Data" /\
  loadWorkbook (Sample.sheetReader (Sample.withSheetName "Data"))
    (Sample.sheetEngines Sample.emptyWorkbook)
    (Sample.withSheetName "Data") Sample.xlsxBinary =
    Ok Sample.emptyWorkbook /\
  ("Data" ∉ SheetNames Sample.emptyWorkbook) /\
  fromFileItem (Sample.sheetReader (Sample.withSheetName "Data"))
    (Sample.sheetEngines Sample.emptyWorkbook) 0 =
    Throw (EmptyWorkbookError 0) /\
  ~ contains "Data" (message (EmptyWorkbookError 0)).
Proof.
  split; [reflexivity |]. split; [reflexivity |].
  split; [apply not_elem_of_nil |]. split; [reflexivity |].
  intros H. apply (contains_occurs "D"%char) in H; [| reflexivity].
  vm_compute in H. discriminate.
Qed.

(** A workbook with the sheets [Sheet1] and [Data]: [Data] is converted
    when requested, [Totals] is not found. *)
Lemma sheet_selection_witness :
  sheetRows (Sample.sheetReader (Sample.withSheetName "Data"))
    (Sample.sheetEngines Sample.twoSheets) 0
    (Sample.withSheetName "Data") Sample.xlsxBinary =
    Ok [Sample.person "Ada" "London"; Sample.person "Alan" "Wilmslow"] /\
  fromFileItem (Sample.sheetReader (Sample.withSheetName "Totals"))
    (Sample.sheetEngines Sample.twoSheets) 0 =
    Throw (SheetNotFoundError "Totals" 0).
Proof.
  split.
  - destruct (sheet_selection
                (Sample.sheetReader (Sample.withSheetName "Data"))
                (Sample.sheetEngines Sample.twoSheets) 0
                (Sample.withSheetName "Data") (PStr "xlsx") Sample.xlsxBinary
                Sample.twoSheets "Sheet1" ["Data"]) as (_ & Hpresent & _).
    + apply sample_resolves. reflexivity.
    + reflexivity.
    + reflexivity.
    + reflexivity.
    + rewrite (Hpresent "Data"); [reflexivity | reflexivity | discriminate |].
      simpl. apply list_elem_of_further, list_elem_of_here.
  - destruct (sheet_selection
                (Sample.sheetReader (Sample.withSheetName "Totals"))
                (Sample.sheetEngines Sample.twoSheets) 0
                (Sample.withSheetName "Totals") (PStr "xlsx") Sample.xlsxBinary
                Sample.twoSheets "Sheet1" ["Data"]) as (Hmissing & _).
    + apply sample_resolves. reflexivity.
    + reflexivity.
    + reflexivity.
    + reflexivity.
    + apply (Hmissing "Totals"); [reflexivity | discriminate |].
      simpl. rewrite !elem_of_cons, elem_of_nil.
      intros [E | [E | []]]; discriminate.
Defined.

(** The first sheet of the sample workbook has no row. *)
Lemma empty_sheet_is_skipped_witness :
  fromFileItem (Sample.sheetReader Sample.noOptions)
    (Sample.sheetEngines Sample.twoSheets) 0 = Ok [] /\
  forall rest newItems,
    fromFileLoop (Sample.sheetReader Sample.noOptions)
      (Sample.sheetEngines Sample.twoSheets) (0%nat :: rest) newItems =
    fromFileLoop (Sample.sheetReader Sample.noOptions)
      (Sample.sheetEngines Sample.twoSheets) rest newItems.
Proof.
  apply (empty_sheet_is_skipped _ _ 0 Sample.noOptions (PStr "xlsx")
           Sample.xlsxBinary).
  - apply sample_resolves. reflexivity.
  - reflexivity.
  - reflexivity.
Defined.

(** Three items of which the middle one has no binary: three outcomes
    with continue-on-failure, an error for index 1 without it. *)
Lemma fromFile_failure_policy_witness :
  execute (Sample.middleFails true) Sample.csvEngines =
    Ok [[ {| json := Sample.person "Ada" "London"; binary := None;
             pairedItem := Some (PairedOne {| item := 0 |}) |};
          {| json := VObj {[ "error" := VStr "no binary data" ]};
             binary := None;
             pairedItem := Some (PairedOne {| item := 1 |}) |};
          {| json := Sample.person "Ada" "London"; binary := None;
             pairedItem := Some (PairedOne {| item := 2 |}) |} ]] /\
  execute (Sample.middleFails false) Sample.csvEngines =
    Throw (NodeOperationError "no binary data" 1).
Proof.
  split.
  - destruct (fromFile_failure_policy (Sample.middleFails true)
                Sample.csvEngines 1 (plainError "no binary data"))
      as [Hcontinue _].
    + reflexivity.
    + simpl. lia.
    + reflexivity.
    + destruct (Hcontinue eq_refl) as (_ & _ & -> & _).
      vm_compute. reflexivity.
  - destruct (fromFile_failure_policy (Sample.middleFails false)
                Sample.csvEngines 1 (plainError "no binary data"))
      as [_ Habort].
    + reflexivity.
    + simpl. lia.
    + reflexivity.
    + destruct (Habort eq_refl) as (-> & _).
      * intros j Hj. assert (j = 0)%nat as -> by lia.
        eexists. vm_compute. reflexivity.
      * reflexivity.
Defined.

(** The record [{a: 1, b: ''}] read with the default options. *)
Lemma keyed_row_drops_empty_strings_witness :
  exists kept : gmap string JsValue,
    onRecord Sample.noOptions
      (RecordObject (<[ "a" := VStr "1" ]> {[ "b" := VStr "" ]})) =
      RecordObject kept /\
    kept = filter (fun entry => notEmptyString entry.2)
             (<[ "a" := VStr "1" ]> {[ "b" := VStr "" ]}) /\
    forall k v,
      kept !! k = Some v <->
      (<[ "a" := VStr "1" ]> {[ "b" := VStr "" ]} : gmap string JsValue) !! k
        = Some v /\ v <> VStr EmptyString.
Proof.
  apply (keyed_row_drops_empty_strings Sample.noOptions). reflexivity.
Defined.

(** A header line and 100 rows: 5 rows with [maxRowCount = 5], 100 with
    [maxRowCount = -1]. *)
Lemma maxRowCount_caps_rows_witness :
  (exists rows,
     csvRows
       (Sample.csvReader (Sample.csvOptions None None (Some 5))
          Sample.hundredRows)
       Sample.csvEngines (Sample.csvOptions None None (Some 5))
       (Sample.csvBinary Sample.hundredRows) = Ok rows /\
     length rows = 5%nat) /\
  (exists rows,
     csvRows
       (Sample.csvReader (Sample.csvOptions None None (Some (-1)))
          Sample.hundredRows)
       Sample.csvEngines (Sample.csvOptions None None (Some (-1)))
       (Sample.csvBinary Sample.hundredRows) = Ok rows /\
     length rows = 100%nat).
Proof.
  split.
  - destruct (maxRowCount_caps_rows
                (Sample.csvReader (Sample.csvOptions None None (Some 5))
                   Sample.hundredRows)
                Sample.csvEngines (Sample.csvOptions None None (Some 5))
                (Sample.csvBinary Sample.hundredRows)
                (String.list_byte_of_string Sample.hundredRows)
                (handled
                   (Sample.scan
                      (withTo None
                         (csvParseOptions
                            (Sample.csvOptions None None (Some 5))))
                      (String.list_byte_of_string Sample.hundredRows))))
      as [_ Hcapped].
    + reflexivity.
    + left. split; reflexivity.
    + vm_compute. reflexivity.
    + destruct (Hcapped 5 eq_refl ltac:(lia)) as (rows & Hok & _ & Hlen).
      exists rows. split; [exact Hok |].
      rewrite Hlen. vm_compute. reflexivity.
  - destruct (maxRowCount_caps_rows
                (Sample.csvReader (Sample.csvOptions None None (Some (-1)))
                   Sample.hundredRows)
                Sample.csvEngines (Sample.csvOptions None None (Some (-1)))
                (Sample.csvBinary Sample.hundredRows)
                (String.list_byte_of_string Sample.hundredRows)
                (handled
                   (Sample.scan
                      (withTo None
                         (csvParseOptions
                            (Sample.csvOptions None None (Some (-1)))))
                      (String.list_byte_of_string Sample.hundredRows))))
      as [Hall _].
    + reflexivity.
    + left. split; reflexivity.
    + vm_compute. reflexivity.
    + destruct (Hall eq_refl) as (rows & Hok & _ & Hlen).
      exists rows. split; [exact Hok |].
      rewrite Hlen. vm_compute. reflexivity.
Defined.

(** Two records written: one item with the payload, or one error record
    when the serializer fails and continue-on-failure is set. *)
Lemma toFile_single_item_witness :
  execute (Sample.writer false) Sample.codec = Ok [[Sample.written]] /\
  execute (Sample.writer true)
    (Sample.engines Sample.unused (Throw (plainError "cannot serialize"))) =
    Ok [[ {| json := VObj {[ "error" := VStr "cannot serialize" ]};
             binary := None;
             pairedItem :=
               Some (PairedMany [ {| item := 0 |}; {| item := 1 |} ]) |} ]].
Proof.
  split.
  - destruct (toFile_single_item (Sample.writer false) Sample.codec eq_refl)
      as (Hwritten & _ & _).
    apply (Hwritten "data" (PStr "xlsx") Sample.noOptions Sample.xlsxBinary);
      reflexivity.
  - destruct (toFile_single_item (Sample.writer true)
                (Sample.engines Sample.unused
                   (Throw (plainError "cannot serialize"))) eq_refl)
      as (_ & Hfailed & _).
    apply (Hfailed (plainError "cannot serialize")); reflexivity.
Defined.



(** ** The read direction as a whole *)

Section ReadDirection.

Context {WorkSheet : Type}.
Variable this : IExecuteFunctions.
Variable lib : Externals WorkSheet.

Lemma filter_itemOutcome_same i :
  filter (pairedWith i) (itemOutcome this lib i) = itemOutcome this lib i.
Proof.
  assert (H := itemOutcome_paired this lib i). revert H.
  generalize (itemOutcome this lib i). intros l H.
  induction l as [|x l IH]; [reflexivity |].
  rewrite filter_cons_True by (apply H; left).
  f_equal. apply IH. intros it Hit. apply H. right. exact Hit.
Qed.

(** A loop that returns has added the outcome of every index. *)
Lemma fromFileLoop_outcomes (indices : list nat) :
  forall newItems output,
    fromFileLoop this lib indices newItems = Ok output ->
    output = newItems ++ flat_map (itemOutcome this lib) indices.
Proof.
  induction indices as [|i rest IH]; intros newItems output; simpl.
  - intros [= <-]. rewrite app_nil_r. reflexivity.
  - unfold itemOutcome at 1.
    destruct (fromFileItem this lib i) as [pushed|error].
    + intros H. rewrite (IH _ _ H), app_assoc. reflexivity.
    + destruct (continueOnFail this); [| discriminate].
      intros H. rewrite (IH _ _ H), app_assoc. reflexivity.
Qed.

(** Without continue-on-failure a loop that returns met no failure. *)
Lemma fromFileLoop_returns_abort (indices : list nat) :
  continueOnFail this = false ->
  forall newItems output,
    fromFileLoop this lib indices newItems = Ok output ->
    forall j, j ∈ indices -> exists pushed, fromFileItem this lib j = Ok pushed.
Proof.
  intros Hc. induction indices as [|i rest IH]; intros newItems output; simpl.
  - intros _ j Hj. inversion Hj.
  - destruct (fromFileItem this lib i) as [pushed|error] eqn:E.
    + intros H j [-> | Hj]%elem_of_cons; [eauto |].
      eapply IH; eassumption.
    + rewrite Hc. discriminate.
Qed.

(** A loop that throws stopped at the first index that failed. *)
Lemma fromFileLoop_throws (indices : list nat) :
  forall newItems thrown,
    fromFileLoop this lib indices newItems = Throw thrown ->
    continueOnFail this = false /\
    exists before i after error,
      indices = before ++ i :: after /\
      (forall j, j ∈ before ->
         exists pushed, fromFileItem this lib j = Ok pushed) /\
      fromFileItem this lib i = Throw error /\
      thrown = wrapError error i.
Proof.
  induction indices as [|i rest IH]; intros newItems thrown; simpl.
  - discriminate.
  - destruct (fromFileItem this lib i) as [pushed|error] eqn:E.
    + intros H. destruct (IH _ _ H)
        as (Hc & before & k & after & err & -> & Hb & Hk & ->).
      split; [exact Hc |]. exists (i :: before), k, after, err.
      repeat split; try assumption.
      intros j [-> | Hj]%elem_of_cons; [eauto | apply Hb, Hj].
    + destruct (continueOnFail this) eqn:Hc.
      * intros H. destruct (IH _ _ H) as (Hc' & _). discriminate.
      * intros [= <-]. split; [reflexivity |].
        exists [], i, rest, error. repeat split; try assumption.
        intros j Hj. inversion Hj.
Qed.

Lemma seq_middle (n : nat) (before after : list nat) (i : nat) :
  seq 0 n = before ++ i :: after ->
  (i < n)%nat /\ before = seq 0 i.
Proof.
  intros H.
  assert (Hi : seq 0 n !! length before = Some i).
  { rewrite H. apply list_lookup_middle. reflexivity. }
  apply lookup_seq in Hi as [Hi Hlt]. simpl in Hi. split; [lia |].
  assert (Ht : take (length before) (seq 0 n) = before).
  { rewrite H. apply take_app_length. }
  rewrite take_seq in Ht. rewrite <- Ht. f_equal. lia.
Qed.

Lemma flat_map_seq_paired (s n : nat) (it : INodeExecutionData) :
  it ∈ flat_map (itemOutcome this lib) (seq s n) ->
  exists i, (s <= i < s + n)%nat /\ pairedWith i it.
Proof.
  rewrite list_elem_of_In, in_flat_map.
  intros (i & Hi & Hit). exists i. split.
  - apply in_seq in Hi. lia.
  - apply (itemOutcome_paired this lib). apply list_elem_of_In. exact Hit.
Qed.

Lemma flat_map_seq_ordered (n : nat) :
  forall s p q a b i j,
    (p <= q)%nat ->
    flat_map (itemOutcome this lib) (seq s n) !! p = Some a ->
    flat_map (itemOutcome this lib) (seq s n) !! q = Some b ->
    pairedWith i a -> pairedWith j b -> (i <= j)%nat.
Proof.
  induction n as [|n IH]; intros s p q a b i j Hpq; simpl.
  - intros Ha. inversion Ha.
  - rewrite !lookup_app_Some.
    intros [Ha | [Hp Ha]] [Hb | [Hq Hb]] Hi Hj.
    + apply list_elem_of_lookup_2, itemOutcome_paired in Ha, Hb.
      rewrite (pairedWith_inj _ _ _ Hi Ha), (pairedWith_inj _ _ _ Hj Hb).
      lia.
    + apply list_elem_of_lookup_2, itemOutcome_paired in Ha.
      apply list_elem_of_lookup_2, flat_map_seq_paired in Hb
        as (k & Hk & Hb).
      rewrite (pairedWith_inj _ _ _ Hi Ha), (pairedWith_inj _ _ _ Hj Hb).
      lia.
    + apply lookup_lt_Some in Hb. lia.
    + apply (IH (S s) (p - length (itemOutcome this lib s))%nat
               (q - length (itemOutcome this lib s))%nat a b);
        [lia | assumption ..].
Qed.

Lemma execute_fromFile :
  getNodeParameter_operation this = Ok "fromFile" ->
  execute this lib =
    (newItems <-
       fromFileLoop this lib (seq 0 (length (getInputData this))) [];;
     Ok [newItems]).
Proof. intros Hop. unfold execute. rewrite Hop. reflexivity. Qed.

Lemma execute_fromFile_output (outputs : list (list INodeExecutionData)) :
  getNodeParameter_operation this = Ok "fromFile" ->
  execute this lib = Ok outputs ->
  outputs =
    [flat_map (itemOutcome this lib) (seq 0 (length (getInputData this)))].
Proof.
  intros Hop. rewrite (execute_fromFile Hop).
  destruct (fromFileLoop this lib _ []) as [out|] eqn:E; [| discriminate].
  intros [= <-]. f_equal. apply (fromFileLoop_outcomes _ _ _ E).
Qed.

(** When no item's [try] body throws, the read direction returns the
    rows of the items in input order, whether continue-on-failure is set
    or not; and with continue-on-failure off, whatever it returns was
    made with no [try] body throwing. *)
Theorem fromFile_all_or_nothing :
  getNodeParameter_operation this = Ok "fromFile" ->
  ((forall i, (i < length (getInputData this))%nat ->
      exists pushed, fromFileItem this lib i = Ok pushed) ->
   execute this lib =
     Ok [flat_map (itemOutcome this lib)
           (seq 0 (length (getInputData this)))]) /\
  (continueOnFail this = false ->
   forall outputs,
     execute this lib = Ok outputs ->
     forall i, (i < length (getInputData this))%nat ->
       exists pushed,
         fromFileItem this lib i = Ok pushed /\
         itemOutcome this lib i = pushed).
Proof.
  intros Hop. rewrite (execute_fromFile Hop). split.
  - intros Hall.
    assert (H := fromFileLoop_prefix this lib
                   (seq 0 (length (getInputData this))) [] []).
    rewrite app_nil_r in H. rewrite H; [reflexivity |].
    intros j Hj. apply Hall. apply elem_of_seq in Hj. lia.
  - intros Hc outputs H.
    destruct (fromFileLoop this lib _ []) as [out|] eqn:E; [| discriminate].
    intros i Hi.
    destruct (fromFileLoop_returns_abort _ Hc _ _ E i) as [pushed Hp].
    { apply elem_of_seq. lia. }
    exists pushed. split; [exact Hp |].
    unfold itemOutcome. rewrite Hp. reflexivity.
Qed.

(** In whatever the read direction returns, every output item is paired
    with one input index below the batch length, the items appear in the
    order of their input index, and those paired with an index are
    exactly what that input item added. *)
Theorem fromFile_outputs_trace_inputs
    (outputs : list (list INodeExecutionData)) :
  getNodeParameter_operation this = Ok "fromFile" ->
  execute this lib = Ok outputs ->
  exists output,
    outputs = [output] /\
    Forall (fun it =>
              exists i, (i < length (getInputData this))%nat /\
                        pairedWith i it) output /\
    (forall p q a b i j,
       (p <= q)%nat -> output !! p = Some a -> output !! q = Some b ->
       pairedWith i a -> pairedWith j b -> (i <= j)%nat) /\
    (forall i, (i < length (getInputData this))%nat ->
       filter (pairedWith i) output = itemOutcome this lib i) /\
    (forall i, (length (getInputData this) <= i)%nat ->
       filter (pairedWith i) output = []).
Proof.
  intros Hop Hex.
  rewrite (execute_fromFile_output _ Hop Hex). eexists.
  split; [reflexivity |].
  split; [| split; [| split]].
  - apply Forall_forall. intros it (i & Hi & Hit)%flat_map_seq_paired.
    exists i. split; [lia | exact Hit].
  - intros p q a b i j. apply flat_map_seq_ordered.
  - intros i Hi. rewrite (seq_split_at _ _ Hi), flat_map_app. simpl.
    rewrite !filter_app.
    rewrite (filter_itemOutcome_other this lib i (seq 0 i)).
    2:{ rewrite elem_of_seq. lia. }
    rewrite (filter_itemOutcome_other this lib i (seq (S i) _)).
    2:{ rewrite elem_of_seq. lia. }
    rewrite app_nil_r. apply filter_itemOutcome_same.
  - intros i Hi. apply filter_itemOutcome_other. rewrite elem_of_seq. lia.
Qed.

(** Whatever the read direction throws is the failure of one input item:
    the first that failed, with continue-on-failure off; the thrown
    error has that item's message and its index. *)
Theorem fromFile_throw_is_attributed (thrown : JsError) :
  getNodeParameter_operation this = Ok "fromFile" ->
  execute this lib = Throw thrown ->
  continueOnFail this = false /\
  exists i error,
    (i < length (getInputData this))%nat /\
    fromFileItem this lib i = Throw error /\
    (forall j, (j < i)%nat ->
       exists pushed, fromFileItem this lib j = Ok pushed) /\
    message thrown = message error /\
    itemIndex thrown = Some i.
Proof.
  intros Hop. rewrite (execute_fromFile Hop).
  destruct (fromFileLoop this lib _ []) as [out|e] eqn:E; [discriminate |].
  simpl. intros [= <-].
  destruct (fromFileLoop_throws _ _ _ E)
    as (Hc & before & i & after & error & Hseq & Hb & Hi & ->).
  apply seq_middle in Hseq as [Hlt ->].
  split; [exact Hc |]. exists i, error. repeat split; try assumption.
  intros j Hj. apply Hb. apply elem_of_seq. lia.
Qed.

(** A format hint other than [autodetect] decides the path alone: [csv]
    takes the CSV path and any other hint the spreadsheet path, whatever
    the MIME type and the extension of the binary. *)
Theorem explicit_format_decides (i : nat) (options : Options)
    (fileFormat : JsParam) (binaryData : IBinaryData) :
  itemResolves this i options fileFormat binaryData ->
  fileFormat <> PStr "autodetect" ->
  (fileFormat = PStr "csv" ->
     fromFileItem this lib i = csvItems this lib i options binaryData) /\
  (fileFormat <> PStr "csv" ->
     fromFileItem this lib i = sheetItems this lib i options binaryData).
Proof.
  intros Hr Hauto. rewrite (fromFileItem_resolved this lib _ _ _ _ Hr).
  unfold extractItem.
  assert (Hd : detectFileFormat fileFormat binaryData = fileFormat).
  { unfold detectFileFormat. destruct fileFormat as [s|]; [| reflexivity].
    simpl. destruct (strictEq s "autodetect") eqn:E; [| reflexivity].
    apply strictEq_true in E. subst s. contradiction. }
  rewrite Hd. split.
  - intros ->. reflexivity.
  - intros Hcsv. destruct fileFormat as [s|]; [| reflexivity]. simpl.
    destruct (strictEq s "csv") eqn:E; [| reflexivity].
    apply strictEq_true in E. subst s. contradiction.
Qed.

(** One output item per extracted row, in the order of the rows: its
    [json] is the row itself in header mode and [{row: row}] when
    [headerRow] is false; this holds on both paths, a sheet without rows
    included. *)
Theorem one_item_per_row (i : nat) (options : Options)
    (fileFormat : JsParam) (binaryData : IBinaryData)
    (pushed : list INodeExecutionData) :
  extractItem this lib i options fileFormat binaryData = Ok pushed ->
  exists rows,
    (if paramIs (detectFileFormat fileFormat binaryData) "csv"
     then csvRows this lib options binaryData
     else sheetRows this lib i options binaryData) = Ok rows /\
    length pushed = length rows /\
    json <$> pushed = rowJson options <$> rows /\
    Forall (pairedWith i) pushed.
Proof.
  unfold extractItem, csvItems, sheetItems.
  assert (Hrows : forall rows,
    length (rowItems i options rows) = length rows /\
    json <$> rowItems i options rows = rowJson options <$> rows /\
    Forall (pairedWith i) (rowItems i options rows)).
  { intros rows. unfold rowItems, rowJson.
    destruct (headerRowIsFalse options);
      (split; [apply length_fmap |]); split;
      try (rewrite <- list_fmap_compose; reflexivity);
      apply Forall_fmap, Forall_forall; intros r _; reflexivity. }
  destruct (paramIs _ _).
  - destruct (csvRows this lib options binaryData) as [rows|];
      [| discriminate].
    simpl. intros [= <-]. exists rows. split; [reflexivity | apply Hrows].
  - destruct (sheetRows this lib i options binaryData) as [rows|];
      [| discriminate].
    simpl. destruct rows as [|r rows]; simpl.
    + intros [= <-]. exists []. repeat split. constructor.
    + intros [= <-]. exists (r :: rows).
      split; [reflexivity | apply (Hrows (r :: rows))].
Qed.

(** The CSV path pushes one row per record the parser handles, a record
    of empty cells included.  With [includeEmptyCells] the rows are the
    records unchanged; without it every row is an object that holds no
    empty string. *)
Theorem csv_rows_one_per_record (options : Options)
    (binaryData : IBinaryData) (rows : list JsValue) :
  csvRows this lib options binaryData = Ok rows ->
  exists parser content records,
    createCSVParser lib (csvParseOptions options) = Ok parser /\
    csvContent this lib binaryData = Ok content /\
    handled (parser content) = records /\
    length rows = length records /\
    (truthyBool (includeEmptyCells options) = true ->
       rows = recordValue <$> records) /\
    (truthyBool (includeEmptyCells options) = false ->
       Forall objectWithoutEmptyStrings rows).
Proof.
  unfold csvRows, csvContent.
  destruct (createCSVParser lib (csvParseOptions options)) as [parser|];
    [| discriminate].
  simpl. intros H.
  assert (Hrun : exists content,
    match truthyString (id binaryData) with
    | Some binaryId => getBinaryStream this binaryId
    | None => Ok (Buffer_from lib (data binaryData))
    end = Ok content /\
    rows = pushedRows options (parser content)).
  { destruct (truthyString (id binaryData)) as [binaryId|].
    - destruct (getBinaryStream this binaryId) as [stream|];
        [| discriminate].
      simpl in H. destruct (parseError (parser stream)); [discriminate |].
      injection H as <-. exists stream. split; reflexivity.
    - injection H as <-. eexists. split; reflexivity. }
  destruct Hrun as (content & Hcontent & ->).
  exists parser, content, (handled (parser content)).
  split; [reflexivity |]. split; [exact Hcontent |]. split; [reflexivity |].
  unfold pushedRows. split; [| split].
  - apply length_fmap.
  - intros Hi. apply list_fmap_ext. intros k r _.
    rewrite (onRecord_includeEmptyCells _ _ Hi). reflexivity.
  - intros Hi. apply Forall_fmap, Forall_forall. intros r _. simpl.
    destruct (onRecord_lookup options r Hi) as (kept & -> & Hkept).
    exists kept. split; [reflexivity |].
    intros k Hk. apply Hkept in Hk as [_ Hne]. apply Hne. reflexivity.
Qed.

(** Where the payload comes from.  When [binaryData.id] is a non-empty
    string the CSV path reads the bytes of [getBinaryStream(id)], and
    fails as that call does, and the spreadsheet path reads the file at
    [getBinaryPath(id)]; otherwise both read the inline [data] through
    [Buffer.from], the spreadsheet path as text when [readAsString] is
    set.  Nothing else of the binary reaches either extractor: two
    binaries with the same source give the same rows. *)
Theorem payload_source (i : nat) (options : Options)
    (binaryData : IBinaryData)
    (parser : list byte -> ParseRun) :
  createCSVParser lib (csvParseOptions options) = Ok parser ->
  (forall binaryId,
     truthyString (id binaryData) = Some binaryId ->
     (forall error,
        getBinaryStream this binaryId = Throw error ->
        csvRows this lib options binaryData = Throw error) /\
     (forall stream,
        getBinaryStream this binaryId = Ok stream ->
        csvRows this lib options binaryData =
          match parseError (parser stream) with
          | Some error => Throw error
          | None => Ok (pushedRows options (parser stream))
          end) /\
     loadWorkbook this lib options binaryData =
       (binaryPath <- getBinaryPath this binaryId;;
        xlsxReadFile lib binaryPath (xlsxOptions options))) /\
  (truthyString (id binaryData) = None ->
     csvRows this lib options binaryData =
       Ok (pushedRows options
             (parser (Buffer_from lib (data binaryData)))) /\
     loadWorkbook this lib options binaryData =
       xlsxRead lib
         (if truthyBool (readAsString options)
          then XlsxString
                 (Buffer_toString lib (Buffer_from lib (data binaryData)))
          else XlsxBuffer (Buffer_from lib (data binaryData)))
         (xlsxOptions options)) /\
  (forall other,
     truthyString (id other) = truthyString (id binaryData) ->
     (truthyString (id binaryData) = None -> data other = data binaryData) ->
     csvRows this lib options other = csvRows this lib options binaryData /\
     sheetRows this lib i options other =
       sheetRows this lib i options binaryData).
Proof.
  intros Hparser. split; [| split].
  - intros binaryId Hid. unfold csvRows, loadWorkbook.
    rewrite Hparser, Hid. simpl. repeat split.
    + intros error ->. reflexivity.
    + intros stream ->. reflexivity.
  - intros Hid. unfold csvRows, loadWorkbook.
    rewrite Hparser, Hid. simpl. split; reflexivity.
  - intros other Hid Hdata. unfold sheetRows, csvRows, loadWorkbook.
    rewrite Hid.
    destruct (truthyString (id binaryData)); [split; reflexivity |].
    rewrite (Hdata eq_refl). split; reflexivity.
Qed.

End ReadDirection.

(** ** The write direction as a whole *)

Section WriteOutcomes.

Context {WorkSheet : Type}.
Variable this : IExecuteFunctions.
Variable lib : Externals WorkSheet.

Lemma execute_toFile :
  getNodeParameter_operation this = Ok "toFile" ->
  execute this lib =
    (newItems <- toFile this lib (getInputData this);; Ok [newItems]).
Proof. intros Hop. unfold execute. rewrite Hop. reflexivity. Qed.

(** The write direction returns one item or throws.  Whatever it returns
    is a single item paired with the whole batch; with
    continue-on-failure it always returns; without it, it throws exactly
    when the body of the [try] throws, and then the same error, with no
    item index added. *)
Theorem toFile_outcomes :
  getNodeParameter_operation this = Ok "toFile" ->
  (forall outputs,
     execute this lib = Ok outputs ->
     exists newItem,
       outputs = [[newItem]] /\
       pairedItem newItem =
         Some (generatePairedItemData (length (getInputData this)))) /\
  (continueOnFail this = true ->
     exists newItem, execute this lib = Ok [[newItem]]) /\
  (continueOnFail this = false ->
     forall error,
       execute this lib = Throw error <->
       toFileBody this lib (getInputData this)
         (generatePairedItemData (length (getInputData this))) = Throw error).
Proof.
  intros Hop. rewrite (execute_toFile Hop). unfold toFile.
  split; [| split].
  - intros outputs.
    destruct (toFileBody this lib _ _) as [newItem|error] eqn:E.
    + simpl. intros [= <-]. exists newItem. split; [reflexivity |].
      revert E. unfold toFileBody.
      destruct (getNodeParameter_binaryPropertyName this 0%nat);
        [| discriminate].
      destruct (getNodeParameter_fileFormat this 0%nat); [| discriminate].
      destruct (getNodeParameter_options this 0%nat); [| discriminate].
      simpl. destruct (convertJsonToSpreadsheetBinary lib _ _ _);
        [| discriminate].
      simpl. intros [= <-]. reflexivity.
    + destruct (continueOnFail this); [| discriminate].
      simpl. intros [= <-]. eexists. split; reflexivity.
  - intros Hc. rewrite Hc.
    destruct (toFileBody this lib _ _); eexists; reflexivity.
  - intros Hc error. rewrite Hc.
    destruct (toFileBody this lib _ _) as [newItem|e]; simpl.
    + split; discriminate.
    + split; intros [= ->]; reflexivity.
Qed.

(** On an empty batch the read direction returns one empty list without
    reading any item, while the write direction still serializes: it
    returns one item, made from the empty list of records and paired
    with no input index. *)
Theorem empty_batch :
  getInputData this = [] ->
  (getNodeParameter_operation this = Ok "fromFile" ->
     execute this lib = Ok [[]]) /\
  (getNodeParameter_operation this = Ok "toFile" ->
     forall name fileFormat options payload,
       getNodeParameter_binaryPropertyName this 0%nat = Ok name ->
       getNodeParameter_fileFormat this 0%nat = Ok fileFormat ->
       getNodeParameter_options this 0%nat = Ok options ->
       convertJsonToSpreadsheetBinary lib [] fileFormat options = Ok payload ->
       execute this lib =
         Ok [[ {| json := VObj ∅;
                  binary := Some {[ name := payload ]};
                  pairedItem := Some (PairedMany []) |} ]]).
Proof.
  intros Hitems. split.
  - intros Hop. unfold execute. rewrite Hop, Hitems. reflexivity.
  - intros Hop name fileFormat options payload Hn Hf Ho Hp.
    unfold execute. rewrite Hop, Hitems. simpl.
    unfold toFile, toFileBody. rewrite Hn, Hf, Ho. simpl. rewrite Hp.
    reflexivity.
Qed.

End WriteOutcomes.

(** ** The description *)

(** The constructor keeps every key of the base description other than
    [version], [defaults], [inputs], [outputs] and [properties], and
    sets these five whatever the base holds: the version is 2, the
    defaults are the name [Spreadsheet File] and the colour [#2244FF],
    there is one [main] input and output, and [properties] is the five
    imported lists one after the other.  Applying it to its own result
    changes nothing. *)
Theorem description_overrides_base (parts : DescriptionProperties)
    (baseDescription : gmap string JsValue) :
  (forall key, key ∉ ownKeys ->
     SpreadsheetFileV2 parts baseDescription !! key = baseDescription !! key) /\
  SpreadsheetFileV2 parts baseDescription !! "version" = Some (VNum 2%float) /\
  SpreadsheetFileV2 parts baseDescription !! "defaults" =
    Some (VObj (<[ "name" := VStr "Spreadsheet File" ]>
                  {[ "color" := VStr "#2244FF" ]})) /\
  SpreadsheetFileV2 parts baseDescription !! "inputs" =
    Some (VArr [VStr "main"]) /\
  SpreadsheetFileV2 parts baseDescription !! "outputs" =
    Some (VArr [VStr "main"]) /\
  SpreadsheetFileV2 parts baseDescription !! "properties" =
    Some (VArr (operationProperties parts ++ fromFileProperties parts
                ++ fromFileV2Properties parts ++ toFileProperties parts
                ++ optionsProperties parts)) /\
  SpreadsheetFileV2 parts (SpreadsheetFileV2 parts baseDescription) =
    SpreadsheetFileV2 parts baseDescription.
Proof.
  unfold SpreadsheetFileV2, ownKeys. repeat split.
  - intros key Hkey. rewrite !elem_of_cons, elem_of_nil in Hkey.
    rewrite !lookup_insert_ne by (intros <-; tauto). reflexivity.
  - rewrite !lookup_insert_ne by discriminate. apply lookup_insert_eq.
  - rewrite !lookup_insert_ne by discriminate. apply lookup_insert_eq.
  - rewrite !lookup_insert_ne by discriminate. apply lookup_insert_eq.
  - rewrite !lookup_insert_ne by discriminate. apply lookup_insert_eq.
  - apply lookup_insert_eq.
  - apply map_eq. intros key. rewrite !lookup_insert.
    repeat case_decide; reflexivity.
Qed.

(** A base description of version 1 with a display name. *)
Lemma description_overrides_base_witness :
  SpreadsheetFileV2 Fixtures.parts Fixtures.base !! "displayName" =
    Some (VStr "Spreadsheet File") /\
  SpreadsheetFileV2 Fixtures.parts Fixtures.base !! "version" =
    Some (VNum 2%float) /\
  SpreadsheetFileV2 Fixtures.parts Fixtures.base !! "properties" =
    Some (VArr [VStr "operation"; VStr "fileFormat";
                VStr "binaryPropertyName"; VStr "fileFormat";
                VStr "options"]).
Proof.
  destruct (description_overrides_base Fixtures.parts Fixtures.base)
    as (Hframe & Hversion & _ & _ & _ & Hproperties & _).
  split; [| split; [exact Hversion | exact Hproperties]].
  rewrite Hframe; [reflexivity |].
  unfold ownKeys. rewrite !elem_of_cons, elem_of_nil.
  intros [E | [E | [E | [E | [E | []]]]]]; discriminate.
Defined.

(** ** The cloud-plans accessors *)

(** Every accessor sends its one request to the context's [baseUrl];
    [confirmEmail] is the only one that posts; and no two accessors send
    the same request: the request tells the accessor and the base URL. *)
Theorem cloud_accessor_requests {IRestApiContext : Type}
    (baseUrl : IRestApiContext -> string) :
  (forall accessor context,
     callBase (accessorCall baseUrl accessor context) = baseUrl context) /\
  (forall accessor context,
     isPost (accessorCall baseUrl accessor context) = true <->
     accessor = ConfirmEmail) /\
  (forall a1 a2 c1 c2,
     accessorCall baseUrl a1 c1 = accessorCall baseUrl a2 c2 ->
     a1 = a2 /\ baseUrl c1 = baseUrl c2).
Proof.
  split; [| split].
  - intros [] context; reflexivity.
  - intros [] context; simpl; split; intros H;
      try reflexivity; discriminate.
  - intros [] [] c1 c2; simpl;
      unfold getCurrentPlan, getCurrentUsage, getCloudUserInfo, confirmEmail,
        getAdminPanelLoginCode, getLeadEnrichmentTemplates;
      intros H; try discriminate; injection H as H; split; auto.
Qed.

(** ** Further statements on the sample collaborators *)

(** The positional record [a,,b] read with the default options. *)
Lemma positional_row_becomes_object_witness :
  exists kept : gmap string JsValue,
    onRecord Sample.noOptions (RecordArray [VStr "a"; VStr ""; VStr "b"]) =
      RecordObject kept /\
    forall k v,
      kept !! k = Some v <->
      exists i : nat,
        k = pretty i /\
        [VStr "a"; VStr ""; VStr "b"] !! i = Some v /\
        v <> VStr EmptyString.
Proof.
  apply (positional_row_becomes_object Sample.noOptions). reflexivity.
Defined.

(** Two CSV items that both parse, without continue-on-failure. *)
Lemma fromFile_all_or_nothing_witness :
  execute
    (Fixtures.reader 2 "autodetect" (Sample.csvBinary Sample.peopleCsv) false)
    Sample.csvEngines = Ok [[Fixtures.adaRow 0; Fixtures.adaRow 1]].
Proof.
  destruct (fromFile_all_or_nothing
              (Fixtures.reader 2 "autodetect"
                 (Sample.csvBinary Sample.peopleCsv) false)
              Sample.csvEngines eq_refl) as [Hall _].
  rewrite Hall; [reflexivity |].
  intros i Hi. eexists. vm_compute. reflexivity.
Defined.

Lemma fromFile_outputs_trace_inputs_witness :
  exists output,
    Fixtures.middleOutputs = [output] /\
    Forall (fun it =>
              exists i, (i < length (getInputData (Sample.middleFails true)))%nat
                        /\ pairedWith i it) output /\
    (forall p q a b i j,
       (p <= q)%nat -> output !! p = Some a -> output !! q = Some b ->
       pairedWith i a -> pairedWith j b -> (i <= j)%nat) /\
    (forall i, (i < length (getInputData (Sample.middleFails true)))%nat ->
       filter (pairedWith i) output =
         itemOutcome (Sample.middleFails true) Sample.csvEngines i) /\
    (forall i, (length (getInputData (Sample.middleFails true)) <= i)%nat ->
       filter (pairedWith i) output = []).
Proof.
  apply (fromFile_outputs_trace_inputs (Sample.middleFails true)
           Sample.csvEngines Fixtures.middleOutputs).
  - reflexivity.
  - vm_compute. reflexivity.
Defined.

(** The same items without continue-on-failure. *)
Lemma fromFile_throw_is_attributed_witness :
  continueOnFail (Sample.middleFails false) = false /\
  exists i error,
    (i < length (getInputData (Sample.middleFails false)))%nat /\
    fromFileItem (Sample.middleFails false) Sample.csvEngines i =
      Throw error /\
    (forall j, (j < i)%nat ->
       exists pushed,
         fromFileItem (Sample.middleFails false) Sample.csvEngines j =
           Ok pushed) /\
    message (NodeOperationError "no binary data" 1) = message error /\
    itemIndex (NodeOperationError "no binary data" 1) = Some i.
Proof.
  apply (fromFile_throw_is_attributed (Sample.middleFails false)
           Sample.csvEngines (NodeOperationError "no binary data" 1)).
  - reflexivity.
  - vm_compute. reflexivity.
Defined.

(** A spreadsheet binary read with the hint [csv], and a CSV binary read
    with the hint [xlsx]. *)
Lemma explicit_format_decides_witness :
  fromFileItem (Fixtures.reader 1 "csv" Sample.xlsxBinary false)
    Sample.csvEngines 0 =
    csvItems (Fixtures.reader 1 "csv" Sample.xlsxBinary false)
      Sample.csvEngines 0 Sample.noOptions Sample.xlsxBinary /\
  fromFileItem
    (Fixtures.reader 1 "xlsx" (Sample.csvBinary Sample.peopleCsv) false)
    Sample.csvEngines 0 =
    sheetItems
      (Fixtures.reader 1 "xlsx" (Sample.csvBinary Sample.peopleCsv) false)
      Sample.csvEngines 0 Sample.noOptions
      (Sample.csvBinary Sample.peopleCsv).
Proof.
  split.
  - apply (explicit_format_decides
             (Fixtures.reader 1 "csv" Sample.xlsxBinary false)
             Sample.csvEngines 0 Sample.noOptions (PStr "csv")
             Sample.xlsxBinary).
    + apply sample_resolves. reflexivity.
    + discriminate.
    + reflexivity.
  - apply (explicit_format_decides
             (Fixtures.reader 1 "xlsx" (Sample.csvBinary Sample.peopleCsv)
                false)
             Sample.csvEngines 0 Sample.noOptions (PStr "xlsx")
             (Sample.csvBinary Sample.peopleCsv)).
    + apply sample_resolves. reflexivity.
    + discriminate.
    + discriminate.
Defined.

(** One CSV row in header mode. *)
Lemma one_item_per_row_witness :
  exists rows,
    csvRows (Sample.middleFails true) Sample.csvEngines Sample.noOptions
      (Sample.csvBinary Sample.peopleCsv) = Ok rows /\
    length [Fixtures.adaRow 0] = length rows /\
    json <$> [Fixtures.adaRow 0] = rowJson Sample.noOptions <$> rows /\
    Forall (pairedWith 0) [Fixtures.adaRow 0].
Proof.
  apply (one_item_per_row (Sample.middleFails true) Sample.csvEngines 0
           Sample.noOptions (PStr "autodetect")
           (Sample.csvBinary Sample.peopleCsv) [Fixtures.adaRow 0]).
  vm_compute. reflexivity.
Defined.

Lemma csv_rows_one_per_record_witness :
  exists parser content records,
    createCSVParser Sample.csvEngines (csvParseOptions Sample.noOptions) =
      Ok parser /\
    csvContent (Sample.middleFails true) Sample.csvEngines
      (Sample.csvBinary Sample.peopleCsv) = Ok content /\
    handled (parser content) = records /\
    length [Sample.person "Ada" "London"] = length records /\
    (truthyBool (includeEmptyCells Sample.noOptions) = true ->
       [Sample.person "Ada" "London"] = recordValue <$> records) /\
    (truthyBool (includeEmptyCells Sample.noOptions) = false ->
       Forall objectWithoutEmptyStrings [Sample.person "Ada" "London"]).
Proof.
  apply (csv_rows_one_per_record (Sample.middleFails true) Sample.csvEngines
           Sample.noOptions (Sample.csvBinary Sample.peopleCsv)).
  vm_compute. reflexivity.
Defined.

(** The same CSV text stored by id and inline. *)
Lemma payload_source_witness :
  csvRows (Fixtures.storedReader Sample.peopleCsv "text/csv" false)
    Sample.csvEngines Sample.noOptions (Fixtures.stored "file-1" "text/csv") =
    Ok [Sample.person "Ada" "London"] /\
  csvRows (Sample.middleFails true) Sample.csvEngines Sample.noOptions
    (Sample.csvBinary Sample.peopleCsv) =
    Ok [Sample.person "Ada" "London"].
Proof.
  split.
  - destruct (payload_source
                (Fixtures.storedReader Sample.peopleCsv "text/csv" false)
                Sample.csvEngines 0 Sample.noOptions
                (Fixtures.stored "file-1" "text/csv")
                (Sample.scan (withTo None (csvParseOptions Sample.noOptions)))
                eq_refl) as (Hstored & _ & _).
    destruct (Hstored "file-1" eq_refl) as (_ & Hstream & _).
    rewrite (Hstream _ eq_refl). vm_compute. reflexivity.
  - destruct (payload_source (Sample.middleFails true) Sample.csvEngines 0
                Sample.noOptions (Sample.csvBinary Sample.peopleCsv)
                (Sample.scan (withTo None (csvParseOptions Sample.noOptions)))
                eq_refl) as (_ & Hinline & _).
    destruct (Hinline eq_refl) as [-> _]. vm_compute. reflexivity.
Defined.

(** A serializer that fails, without continue-on-failure. *)
Lemma toFile_outcomes_witness :
  execute (Sample.writer false) Fixtures.failingSerializer =
    Throw (plainError "cannot serialize").
Proof.
  destruct (toFile_outcomes (Sample.writer false) Fixtures.failingSerializer
              eq_refl) as (_ & _ & Habort).
  apply (Habort eq_refl). reflexivity.
Defined.

(** No input item, in either direction. *)
Lemma empty_batch_witness :
  execute (Fixtures.nobody "fromFile") Sample.codec = Ok [[]] /\
  execute (Fixtures.nobody "toFile") Sample.codec =
    Ok [[ {| json := VObj ∅;
             binary := Some {[ "data" := Sample.xlsxBinary ]};
             pairedItem := Some (PairedMany []) |} ]].
Proof.
  destruct (empty_batch (Fixtures.nobody "fromFile") Sample.codec eq_refl)
    as [Hread _].
  destruct (empty_batch (Fixtures.nobody "toFile") Sample.codec eq_refl)
    as [_ Hwrite].
  split.
  - apply Hread. reflexivity.
  - apply (Hwrite eq_refl "data" (PStr "xlsx") Sample.noOptions
             Sample.xlsxBinary); reflexivity.
Defined.

(** ** Options handed to the engines *)

(** The sheet that is converted is always one of the workbook's declared
    sheets: the requested one, or the first when none is requested; and
    sheet selection fails only with the empty-workbook error or the
    sheet-not-found error, both carrying the item's index. *)
Theorem selected_sheet_is_declared {WorkSheet : Type} (i : nat)
    (options : Options) (workbook : WorkBook WorkSheet) :
  (forall name,
     selectSheet i options workbook = Ok name ->
     name ∈ SheetNames workbook /\
     (truthyString (sheetName options) = Some name \/
      (truthyString (sheetName options) = None /\
       head (SheetNames workbook) = Some name))) /\
  (forall error,
     selectSheet i options workbook = Throw error ->
     itemIndex error = Some i /\
     ((error = EmptyWorkbookError i /\ SheetNames workbook = []) \/
      exists requested,
        error = SheetNotFoundError requested i /\
        truthyString (sheetName options) = Some requested /\
        requested ∉ SheetNames workbook)).
Proof.
  unfold selectSheet.
  destruct (SheetNames workbook) as [|first others] eqn:Hs.
  - split; [discriminate |].
    intros error [= <-]. split; [reflexivity |]. left. split; reflexivity.
  - destruct (truthyString (sheetName options)) as [requested|].
    + destruct (bool_decide (requested ∈ first :: others)) eqn:Hin.
      * apply bool_decide_eq_true in Hin. split; [| discriminate].
        intros name [= <-]. split; [exact Hin | left; reflexivity].
      * apply bool_decide_eq_false in Hin. split; [discriminate |].
        intros error [= <-]. split; [reflexivity |]. right.
        exists requested. repeat split. exact Hin.
    + split; [| discriminate].
      intros name [= <-]. split; [left | right; split; reflexivity].
Qed.

(** The [to] option handed to the CSV parser is never negative: it is
    [maxRowCount] when that is 0 or more, and it is left out when
    [maxRowCount] is unset or below 0. *)
Theorem cap_is_never_negative (options : Options) :
  (forall k, csv_to (csvParseOptions options) = Some k ->
     0 <= k /\ maxRowCount options = Some k) /\
  (csv_to (csvParseOptions options) = None <->
   maxRowCount options = None \/
   exists k, maxRowCount options = Some k /\ k <= -1).
Proof.
  unfold csvParseOptions. simpl.
  destruct (maxRowCount options) as [n|].
  - destruct (Z.ltb_spec (-1) n) as [Hn | Hn]; split.
    + intros k [= <-]. split; [lia | reflexivity].
    + split; [discriminate |].
      intros [H | (k & [= <-] & Hk)]; [discriminate | lia].
    + discriminate.
    + split; [| reflexivity]. intros _. right. exists n.
      split; [reflexivity | lia].
  - split; [discriminate |]. split; [left |]; reflexivity.
Qed.

(** Both engines and the row mapper agree on the header mode, and an
    unset [headerRow] means header mode: unless [headerRow] is false the
    CSV parser is given [columns], [sheet_to_json] no [header], and the
    rows are emitted as they are; when it is false the parser is given no
    [columns], [sheet_to_json] gets [header: 1], and every row is emitted
    under [row]. *)
Theorem header_mode_agrees {WorkSheet : Type} (lib : Externals WorkSheet)
    (options : Options) :
  (headerRow options <> Some false ->
     csv_columns (csvParseOptions options) = true /\
     s2j_header (sheetToJsonOptions lib options) = None /\
     forall i rows, json <$> rowItems i options rows = rows) /\
  (headerRow options = Some false ->
     csv_columns (csvParseOptions options) = false /\
     s2j_header (sheetToJsonOptions lib options) = Some 1 /\
     forall i rows,
       json <$> rowItems i options rows =
         (fun row => VObj {[ "row" := row ]}) <$> rows).
Proof.
  split; intros H.
  - apply headerRowIsFalse_false in H.
    unfold csvParseOptions, sheetToJsonOptions, rowItems. simpl.
    rewrite H. repeat split. intros i rows.
    rewrite <- list_fmap_compose. apply list_fmap_id.
  - apply headerRowIsFalse_true in H.
    unfold csvParseOptions, sheetToJsonOptions, rowItems. simpl.
    rewrite H. repeat split. intros i rows.
    rewrite <- list_fmap_compose. reflexivity.
Qed.

(** ** Binaries in the output *)

Section OutputBinaries.

Context {WorkSheet : Type}.
Variable this : IExecuteFunctions.
Variable lib : Externals WorkSheet.

Lemma itemOutcome_no_binary i it :
  it ∈ itemOutcome this lib i -> binary it = None.
Proof.
  unfold itemOutcome.
  destruct (fromFileItem this lib i) as [pushed|error] eqn:E.
  - revert E. unfold fromFileItem.
    destruct (getNodeParameter_options this i) as [options|];
      [| discriminate].
    destruct (getNodeParameter_fileFormat this i) as [ff|]; [| discriminate].
    destruct (getNodeParameter_binaryPropertyName this i) as [name|];
      [| discriminate].
    simpl. destruct (assertBinaryData this i name) as [b|]; [| discriminate].
    simpl. unfold extractItem, csvItems, sheetItems, rowItems.
    destruct (paramIs _ _).
    + destruct (csvRows this lib options b) as [rs|]; [| discriminate].
      simpl. intros [= <-].
      destruct (headerRowIsFalse options);
        intros (r & -> & _)%list_elem_of_fmap; reflexivity.
    + destruct (sheetRows this lib i options b) as [rs|]; [| discriminate].
      simpl. destruct (length rs =? 0)%nat.
      * intros [= <-] Hit. inversion Hit.
      * intros [= <-].
        destruct (headerRowIsFalse options);
          intros (r & -> & _)%list_elem_of_fmap; reflexivity.
  - intros ->%list_elem_of_singleton. reflexivity.
Qed.

(** The read direction never forwards a binary: whatever it returns,
    no output item has a [binary] field, an error record included. *)
Theorem fromFile_outputs_carry_no_binary
    (outputs : list (list INodeExecutionData)) :
  getNodeParameter_operation this = Ok "fromFile" ->
  execute this lib = Ok outputs ->
  Forall (Forall (fun it => binary it = None)) outputs.
Proof.
  intros Hop Hex.
  rewrite (execute_fromFile_output this lib _ Hop Hex).
  constructor; [| constructor].
  apply Forall_forall. intros it. rewrite list_elem_of_In, in_flat_map.
  intros (i & _ & Hit). apply (itemOutcome_no_binary i).
  apply list_elem_of_In. exact Hit.
Qed.

End OutputBinaries.

Lemma fromFile_outputs_carry_no_binary_witness :
  Forall (Forall (fun it => binary it = None)) Fixtures.middleOutputs.
Proof.
  apply (fromFile_outputs_carry_no_binary (Sample.middleFails true)
           Sample.csvEngines Fixtures.middleOutputs).
  - reflexivity.
  - vm_compute. reflexivity.
Defined.

(** ** Errors of the CSV parser *)

Section ParseErrors.

Context {WorkSheet : Type}.
Variable this : IExecuteFunctions.
Variable lib : Externals WorkSheet.

(** An error the parser emits reaches the [try] only for a stored
    payload.  For an item on the CSV path whose parser was built: when
    the payload is inline the item never fails in the parser, it adds
    the rows handled before the error, if there is one; when the payload
    is stored and the parser emits an error the item fails with that
    error and adds no row. *)
Theorem csv_parse_error_handling (i : nat) (options : Options)
    (fileFormat : JsParam) (binaryData : IBinaryData)
    (parser : list byte -> ParseRun) :
  itemResolves this i options fileFormat binaryData ->
  paramIs (detectFileFormat fileFormat binaryData) "csv" = true ->
  createCSVParser lib (csvParseOptions options) = Ok parser ->
  (truthyString (id binaryData) = None ->
     fromFileItem this lib i =
       Ok (rowItems i options
             (pushedRows options
                (parser (Buffer_from lib (data binaryData)))))) /\
  (forall binaryId stream error,
     truthyString (id binaryData) = Some binaryId ->
     getBinaryStream this binaryId = Ok stream ->
     parseError (parser stream) = Some error ->
     fromFileItem this lib i = Throw error).
Proof.
  intros Hr Hcsv Hparser.
  rewrite (fromFileItem_resolved this lib _ _ _ _ Hr).
  unfold extractItem. rewrite Hcsv. unfold csvItems, csvRows.
  rewrite Hparser. simpl. split.
  - intros ->. reflexivity.
  - intros binaryId stream error Hid Hstream Herror.
    rewrite Hid, Hstream. simpl. rewrite Herror. reflexivity.
Qed.

End ParseErrors.

(** C2: the failure policy does not reach an inline CSV payload that the
    parser rejects.  The text has a third line short of a cell and the
    scan stops there with an error.  Read inline, the item adds the row
    handled before the error: there is no error record with
    continue-on-failure and no abort without it.  The same text stored
    by id gives the error record, or the abort with item index 0. *)
Theorem inline_parse_error_is_not_reported :
  csvScan Sample.csvEngines
    (withTo None (csvParseOptions Sample.noOptions))
    (String.list_byte_of_string Fixtures.brokenCsv) =
    {| handled :=
         [RecordObject
            (<[ "name" := VStr "Ada" ]> {[ "city" := VStr "London" ]})];
       parseError := Some (plainError "Invalid Record Length") |} /\
  execute
    (Fixtures.reader 1 "autodetect" (Sample.csvBinary Fixtures.brokenCsv) true)
    Sample.csvEngines = Ok [[Fixtures.adaRow 0]] /\
  execute
    (Fixtures.reader 1 "autodetect" (Sample.csvBinary Fixtures.brokenCsv)
       false)
    Sample.csvEngines = Ok [[Fixtures.adaRow 0]] /\
  execute (Fixtures.storedReader Fixtures.brokenCsv "text/csv" true)
    Sample.csvEngines =
    Ok [[ {| json := VObj {[ "error" := VStr "Invalid Record Length" ]};
             binary := None;
             pairedItem := Some (PairedOne {| item := 0 |}) |} ]] /\
  execute (Fixtures.storedReader Fixtures.brokenCsv "text/csv" false)
    Sample.csvEngines =
    Throw (NodeOperationError "Invalid Record Length" 0).
Proof. repeat split; vm_compute; reflexivity. Qed.

(** A stored and an inline payload with the broken text. *)
Lemma csv_parse_error_handling_witness :
  fromFileItem
    (Fixtures.reader 1 "autodetect" (Sample.csvBinary Fixtures.brokenCsv)
       false)
    Sample.csvEngines 0 = Ok [Fixtures.adaRow 0] /\
  fromFileItem (Fixtures.storedReader Fixtures.brokenCsv "text/csv" false)
    Sample.csvEngines 0 = Throw (plainError "Invalid Record Length").
Proof.
  split.
  - destruct (csv_parse_error_handling
                (Fixtures.reader 1 "autodetect"
                   (Sample.csvBinary Fixtures.brokenCsv) false)
                Sample.csvEngines 0 Sample.noOptions (PStr "autodetect")
                (Sample.csvBinary Fixtures.brokenCsv)
                (Sample.scan (withTo None (csvParseOptions Sample.noOptions))))
      as [Hinline _].
    + apply sample_resolves. reflexivity.
    + reflexivity.
    + reflexivity.
    + rewrite (Hinline eq_refl). vm_compute. reflexivity.
  - destruct (csv_parse_error_handling
                (Fixtures.storedReader Fixtures.brokenCsv "text/csv" false)
                Sample.csvEngines 0 Sample.noOptions (PStr "autodetect")
                (Fixtures.stored "file-1" "text/csv")
                (Sample.scan (withTo None (csvParseOptions Sample.noOptions))))
      as [_ Hstored].
    + split; [reflexivity |]. split; [reflexivity |].
      exists "data". split; reflexivity.
    + reflexivity.
    + reflexivity.
    + apply (Hstored "file-1"
               (String.list_byte_of_string Fixtures.brokenCsv)
               (plainError "Invalid Record Length")); [reflexivity .. |].
      vm_compute. reflexivity.
Defined.
